(** * SEACrowd dataset loaders: CC3M-35L, Indonesian-Madurese Bible
      translation, ViCon and UIT-ViCoV19QA

    A shallow embedding of the record-generation code of the four loaders
    under [seacrowd/sea_datasets/], and the properties of the loaders'
    specification stated over it.

    Conventions of the embedding:
    - a Python [str] is a [string] (a sequence of bytes); whitespace is ASCII
      whitespace;
    - a Python [int] is a [Z];
    - a Python [dict] with string keys is a [gmap string value]; a dict
      display [{k1: v1, ..., kn: vn}] is the map obtained by inserting the
      items from left to right ([mkdict]), so that a repeated key keeps the
      last value, as in Python;
    - code that can raise returns a [result];
    - a generator is described by the list of the values it yields, in order,
      together with the way it stops: the value of its [return] statement
      (which Python attaches to [StopIteration], and which a [for] loop over
      the generator never sees) or the exception that escapes it. *)

From Stdlib Require Import ZArith String Ascii List Sorted Lia.
From stdpp Require Import base option list gmap strings pretty.

Set Warnings "-register-all".
Set Default Proof Using "Type".

Open Scope string_scope.
Open Scope Z_scope.
Open Scope list_scope.

(** ** Python values, exceptions and string operations *)

Module Py.

Inductive value : Type :=
  | VNone
  | VInt (z : Z)
  | VStr (s : string)
  | VList (l : list value)
  | VDict (d : gmap string value).

Abbreviation dict := (gmap string value).

Inductive exn : Type :=
  | KeyError
  | IndexError
  | TypeError
  | ValueError
  | AttributeError
  | UnboundLocalError
  | JSONDecodeError.

Inductive result (A : Type) : Type :=
  | Ok (a : A)
  | Raise (e : exn).
Arguments Ok {A} a.
Arguments Raise {A} e.

#[export] Instance result_ret : MRet result := λ A a, Ok a.
#[export] Instance result_bind : MBind result := λ A B k r,
  match r with
  | Ok a => k a
  | Raise e => Raise e
  end.

#[export] Instance result_fmap : FMap result := λ A B f r,
  match r with
  | Ok a => Ok (f a)
  | Raise e => Raise e
  end.

Definition is_ok {A} (r : result A) : bool :=
  match r with Ok _ => true | Raise _ => false end.

(** [{k1: v1, ..., kn: vn}]: the items are stored from left to right. *)
Definition mkdict (items : list (string * value)) : dict :=
  foldl (λ d kv, <[kv.1 := kv.2]> d) ∅ items.

(** [v[k]] for a string key [k]. *)
Definition getitem (v : value) (k : string) : result value :=
  match v with
  | VDict d => match d !! k with Some x => Ok x | None => Raise KeyError end
  | _ => Raise TypeError
  end.

(** [xs[i]] on a list, for an index [i >= 0]. *)
Definition index {A} (xs : list A) (i : nat) : result A :=
  match xs !! i with Some x => Ok x | None => Raise IndexError end.

(** [v == s] where [s] is a [str]. *)
Definition eq_str (v : value) (s : string) : bool :=
  match v with
  | VStr t => bool_decide (t = s)
  | _ => false
  end.

(** [str(i)] for an integer: its decimal writing. *)
Definition str_int (z : Z) : string := pretty z.

(** *** What a generator yields *)

(** The keys of the yielded pairs are [i], [i + 1], [i + 2], ... in order;
    from 0 they are dense keys. *)
Definition keys_from (i : Z) (ys : list (Z * dict)) : Prop :=
  ys.*1 = (λ j, i + Z.of_nat j) <$> seq 0 (length ys).


(** A record carries its key, printed, in its ["id"] field. *)
Definition id_ok (y : Z * dict) : Prop := y.2 !! "id" = Some (VStr (str_int y.1)).



(** *** Strings *)

Definition tab : ascii := ascii_of_nat 9.
Definition newline : ascii := ascii_of_nat 10.
Definition underscore : ascii := ascii_of_nat 95.

(** [str.isspace] on one ASCII character: HT, LF, VT, FF, CR, FS, GS, RS, US
    and the space. *)
Definition is_space (a : ascii) : bool :=
  let n := nat_of_ascii a in
  ((9 <=? n)%nat && (n <=? 13)%nat) || ((28 <=? n)%nat && (n <=? 32)%nat).

Fixpoint lstrip (s : string) : string :=
  match s with
  | EmptyString => EmptyString
  | String a s' => if is_space a then lstrip s' else s
  end.

Fixpoint rstrip (s : string) : string :=
  match s with
  | EmptyString => EmptyString
  | String a s' =>
      match rstrip s' with
      | EmptyString => if is_space a then EmptyString else String a EmptyString
      | r => String a r
      end
  end.

(** [s.strip()] *)
Definition strip (s : string) : string := rstrip (lstrip s).

(** A string made of whitespace only (the empty string included). *)
Fixpoint blank (s : string) : bool :=
  match s with
  | EmptyString => true
  | String a s' => is_space a && blank s'
  end.

(** [not s] for a string: true on the empty string only. *)
Definition is_empty (s : string) : bool :=
  match s with EmptyString => true | _ => false end.

(** [s.split(sep)] for a separator of one character. *)
Fixpoint split (sep : ascii) (s : string) : list string :=
  match s with
  | EmptyString => [EmptyString]
  | String a s' =>
      if Ascii.eqb a sep then EmptyString :: split sep s'
      else match split sep s' with
           | w :: ws => String a w :: ws
           | [] => [String a EmptyString]
           end
  end.

(** Number of occurrences of a character. *)
Fixpoint count (c : ascii) (s : string) : nat :=
  match s with
  | EmptyString => 0%nat
  | String a s' => ((if Ascii.eqb a c then 1 else 0) + count c s')%nat
  end.

Fixpoint starts_with (p s : string) : bool :=
  match p, s with
  | EmptyString, _ => true
  | String a p', String b s' => Ascii.eqb a b && starts_with p' s'
  | String _ _, EmptyString => false
  end.

(** [sub in s] *)
Fixpoint contains (sub s : string) : bool :=
  starts_with sub s ||
  match s with
  | EmptyString => false
  | String _ s' => contains sub s'
  end.

(** *** Paths and joins *)

(** [sep.join(pieces)] *)
Fixpoint join (sep : string) (pieces : list string) : string :=
  match pieces with
  | [] => EmptyString
  | [p] => p
  | p :: ps => p +:+ sep +:+ join sep ps
  end.

Fixpoint ends_with_slash (s : string) : bool :=
  match s with
  | EmptyString => false
  | String a EmptyString => Ascii.eqb a (ascii_of_nat 47)
  | String _ s' => ends_with_slash s'
  end.

(** [os.path.join(a, b)] on POSIX paths: an absolute [b] replaces [a], and a
    separator is put in between unless [a] is empty or ends with one. *)
Definition path_join (a b : string) : string :=
  if starts_with "/" b then b
  else if is_empty a || ends_with_slash a then a +:+ b
  else a +:+ "/" +:+ b.

(** A string without whitespace at either end. *)
Definition stripped (s : string) : Prop := lstrip s = s ∧ rstrip s = s.


(** *** Declared features *)

(** What [_info] puts in the [features] of the dataset: a
    [datasets.Features] display, whose columns are all declared
    [Value("string")] in these loaders and are kept by name, or one of the
    schemas of [seacrowd.utils.schemas], kept by name as well. *)
Inductive features : Type :=
  | Features (names : list string)
  | SchemaFeatures (schema_name : string).
End Py.

Import Py.

(** ** CC3M-35L: the streaming join ([cc3m_35l.py]) *)

Module CC3M35L.

(** The configuration fields the generator reads. *)
Record config := Config {
  name : string;
  schema : string;
  subset_id : string;
}.

(** A row of the Conceptual Captions side table (columns [caption] and
    [img_url]), and the table as a frame: its rows in file order, each with
    its index label. *)
Record gcc_row := GccRow { caption : string; img_url : string }.

Abbreviation DataFrame := (list (Z * gcc_row)).

(** [pd.read_csv(..., header=None, names=["caption", "img_url"])]: the rows
    are labelled 0, 1, 2, ... *)
Definition read_csv (rows : list gcc_row) : DataFrame :=
  zip (Z.of_nat <$> seq 0 (length rows)) rows.

(** [df.index = df.index + 1] *)
Definition shift_index (df : DataFrame) : DataFrame :=
  prod_map (Z.add 1) id <$> df.

(** The side table of a split as [_split_generators] builds it. *)
Definition side_table (rows : list gcc_row) : DataFrame :=
  shift_index (read_csv rows).

(** The row labelled [i], if any (labels of a side table are unique). *)
Fixpoint find_label (df : DataFrame) (i : Z) : option gcc_row :=
  match df with
  | [] => None
  | (j, r) :: df' => if bool_decide (j = i) then Some r else find_label df' i
  end.

(** [df.loc[index, 'img_url']] for a label decoded from the stream. Labels
    are integers; a label of another scalar type is a miss. Selection by a
    list of labels, which pandas answers with a column rather than a cell,
    is not part of the model: records of the corpus carry an integer
    [rec_num]. *)
Definition loc_img_url (df : DataFrame) (index : value) : result value :=
  match index with
  | VInt i =>
      match find_label df i with
      | Some r => Ok (VStr (img_url r))
      | None => Raise KeyError
      end
  | VNone | VStr _ => Raise KeyError
  | VList _ | VDict _ => Raise TypeError
  end.

(** An open text file: the lines [readline] returns one after the other
    (each with its line terminator) and the number of lines already read. *)
Record handle := Handle { lines : list string; pos : nat }.

Definition open (content : list string) : handle := Handle content 0.

(** [readline()]: the next line, or the empty string at the end of the file,
    where the cursor stays. *)
Definition readline (h : handle) : string * handle :=
  match lines h !! pos h with
  | Some l => (l, Handle (lines h) (S (pos h)))
  | None => (EmptyString, h)
  end.

(** [seek(0)] *)
Definition seek0 (h : handle) : handle := Handle (lines h) 0.

(** What a run of the generator to its end produces: the pairs it yields,
    the value it returns or the exception it raises, and the place of the
    cursor of the stream afterwards. *)
Record run := Run {
  yields : list (Z * dict);
  outcome : result (Z * option dict);
  cursor : nat;
}.

(** [yield idx, c_data] in front of the rest of the run, when a record is
    pending. *)
Definition yield_pending (idx : Z) (c_data : option dict) (r : run) : run :=
  match c_data with
  | Some c => Run ((idx, c) :: yields r) (outcome r) (cursor r)
  | None => r
  end.

Definition stop (o : result (Z * option dict)) (cur : nat) : run := Run [] o cur.

Section generate.

(** [json.loads], [None] when it raises. *)
Variable json_loads : string → option value.
Variable cfg : config.
Variable gcc_df : DataFrame.
Variable lang : string.

(** The record built for an accepted row once [idx] has been advanced. *)
Definition make_example (idx : Z) (row caption img_url : value) : result dict :=
  if bool_decide (schema cfg = "source") then
    trg ← index (split underscore (subset_id cfg)) 2;
    translation ← getitem row "translation_tokenized";
    backtranslation ← getitem row "backtranslation_tokenized";
    mret (mkdict [
      ("id", VStr (str_int idx));
      ("image_paths", img_url);
      ("src_lang", VStr "en");
      ("caption_tokenized", caption);
      ("trg_lang", VStr trg);
      ("translation_tokenized", translation);
      ("backtranslation_tokenized", backtranslation)])
  else if bool_decide (schema cfg = "seacrowd_imtext") then
    translation ← getitem row "translation_tokenized";
    mret (mkdict [
      ("id", VStr (str_int idx));
      ("image_paths", VList [img_url]);
      ("texts", translation);
      ("metadata", VDict (mkdict [("context", VNone); ("labels", VNone)]))])
  else Raise ValueError.

(** The lookups made for a row of the requested language before anything is
    yielded: [rec_num], [caption_tokenized], and the cell of the side table. *)
Definition match_row (row : value) : result (value * value) :=
  index ← getitem row "rec_num";
  caption ← getitem row "caption_tokenized";
  img_url ← loc_img_url gcc_df index;
  mret (caption, img_url).

(** The [while True] loop, by recursion on the lines not read yet: [rest] is
    what remains of the file after the first [pos] lines. *)
Fixpoint loop (rest : list string) (pos : nat) (idx : Z) (c_data : option dict) : run :=
  match rest with
  | [] => stop (Ok (idx, c_data)) 0
  | l :: rest' =>
      let line := strip l in
      if is_empty line then stop (Ok (idx, c_data)) 0
      else
        match json_loads line with
        | None => stop (Raise JSONDecodeError) (S pos)
        | Some row =>
            match getitem row "trg_lang" with
            | Raise e => stop (Raise e) (S pos)
            | Ok t =>
                if negb (eq_str t lang) then loop rest' (S pos) idx c_data
                else
                  match match_row row with
                  | Raise e => stop (Raise e) (S pos)
                  | Ok (caption, img_url) =>
                      yield_pending idx c_data
                        match make_example (idx + 1) row caption img_url with
                        | Raise e => stop (Raise e) (S pos)
                        | Ok c => loop rest' (S pos) (idx + 1) (Some c)
                        end
                  end
            end
        end
  end.

(** [_generate_examples(data, lang, split)] run to its end on the stream
    handle of [data]. *)
Definition _generate_examples (split_handler : handle) : run :=
  loop (drop (pos split_handler) (lines split_handler)) (pos split_handler) (-1) None.

(** The stream handle after the run. *)
Definition handle_after (split_handler : handle) : handle :=
  Handle (lines split_handler) (cursor (_generate_examples split_handler)).

(** The pending record as the list of what is still to be handed out. *)
Definition pend (idx : Z) (c_data : option dict) : list (Z * dict) :=
  match c_data with Some c => [(idx, c)] | None => [] end.

(** Following the specification's words: the stream records accepted by the
    language filter, that is the records read before the first blank line
    whose target-language tag is the requested language. *)
Fixpoint accepted (rest : list string) : list value :=
  match rest with
  | [] => []
  | l :: rest' =>
      if is_empty (strip l) then []
      else match json_loads (strip l) with
           | None => []
           | Some row =>
               match getitem row "trg_lang" with
               | Raise _ => []
               | Ok t => if eq_str t lang then row :: accepted rest' else accepted rest'
               end
           end
  end.

(** A stream record of another language: it decodes, it has a tag, and the
    tag is not the requested language. *)
Definition other_language (l : string) : bool :=
  negb (is_empty (strip l)) &&
  match json_loads (strip l) with
  | Some row =>
      match getitem row "trg_lang" with
      | Ok t => negb (eq_str t lang)
      | Raise _ => false
      end
  | None => false
  end.

End generate.


(** *** The per-row image fetch *)

Section fill_img_path.

(** [datasets.DownloadManager().download(url)]: the local path, or [None]
    when the download raises. *)
Variable download : string → option string.

(** What [fill_img_path] hands back, with the URLs it asked for, in the order
    of the requests. *)
Record fetched := Fetched {
  selected_row : DataFrame;
  exceptions : list Z;
  requests : list string;
}.

(** [df.query('caption==@line["caption_tokenized"]')] *)
Definition query_caption (df : DataFrame) (caption : value) : DataFrame :=
  filter (λ ir, eq_str caption (CC3M35L.caption ir.2) = true) df.

(** The rows whose download fails, and the URLs of all the rows. *)
Definition failing (rows : DataFrame) : list Z :=
  (filter (λ ir, download (img_url ir.2) = None) rows).*1.

Definition urls (rows : DataFrame) : list string :=
  (λ ir, img_url ir.2) <$> rows.

(** The [for idx, row in selected_row.iterrows()] loop. The two assignments
    to [row] write to the row handed out by [iterrows], not to the frame;
    they only read [line]. *)
Fixpoint fetch_rows (line : value) (rows : DataFrame)
    (exceptions : list Z) (requests : list string) : result (list Z * list string) :=
  match rows with
  | [] => Ok (exceptions, requests)
  | (idx, row) :: rows' =>
      _ ← getitem line "translation_tokenized";
      _ ← getitem line "backtranslation_tokenized";
      match download (img_url row) with
      | Some _ => fetch_rows line rows' exceptions (requests ++ [img_url row])
      | None => fetch_rows line rows' (exceptions ++ [idx]) (requests ++ [img_url row])
      end
  end.

Definition fill_img_path (df : DataFrame) (line : value) : result fetched :=
  caption ← getitem line "caption_tokenized";
  let selected_row := query_caption df caption in
  '(exceptions, requests) ← fetch_rows line selected_row [] [];
  mret (Fetched selected_row exceptions requests).

End fill_img_path.

(** *** The language filter as a function *)

(** [is_target(line, trg_lang)]: the line when its tag is the language, and
    [None], the value of a function that ends without [return], otherwise. *)
Definition is_target (line : value) (trg_lang : string) : result (option value) :=
  t ← getitem line "trg_lang";
  mret (if eq_str t trg_lang then Some line else None).

(** *** Relations between stream records and output records *)

Section joined.

Variable json_loads : string → option value.
Variable cfg : config.
Variable gcc_df : DataFrame.
Variable lang : string.

(** The record [y.2] is the one the loop builds, with the identifier [y.1],
    for the stream record [row]. *)
Definition joined (y : Z * dict) (row : value) : Prop :=
  ∃ caption img_url,
    match_row gcc_df row = Ok (caption, img_url) ∧
    make_example cfg y.1 row caption img_url = Ok y.2.

(** The line [l] is a stream record of the requested language, decoded as
    [row]. *)
Definition requested (l : string) (row : value) : Prop :=
  is_empty (strip l) = false ∧ json_loads (strip l) = Some row ∧
  ∃ t, getitem row "trg_lang" = Ok t ∧ eq_str t lang = true.

End joined.

(** *** The configurations and the split generators *)

Definition _DATASETNAME : string := "cc3m_35l".

Definition _LANGUAGES : list string := ["fil"; "ind"; "tha"; "vie"].

Definition LANGUAGE_MAP : gmap string string :=
  <["vie" := "vi"]> (<["tha" := "th"]> (<["ind" := "id"]> (<["fil" := "fil"]> ∅))).

Definition BUILDER_CONFIGS : list config :=
  ((λ lang, Config ("cc3m_35l_" +:+ lang +:+ "_source") "source" ("cc3m_35l_" +:+ lang))
     <$> _LANGUAGES) ++
  ((λ lang, Config (_DATASETNAME +:+ "_" +:+ lang +:+ "_seacrowd_imtext") "seacrowd_imtext"
                   (_DATASETNAME +:+ "_" +:+ lang))
     <$> _LANGUAGES).

Definition DEFAULT_CONFIG_NAME : string := "cc3m_35l_id_source".

(** A [datasets.SplitGenerator] with its [gen_kwargs]. *)
Record split_generator := SplitGenerator {
  gen_name : string;
  gen_data : handle * DataFrame;
  gen_lang : string;
  gen_split : string;
}.

(** [_split_generators]: [data_dir] is [self.config.data_dir], [dev] and
    [train] are the lines of the two downloaded streams, and [val_rows] and
    [train_rows] the rows of the two tables found under [data_dir]. *)
Definition _split_generators (cfg : config) (data_dir : option string)
    (dev train : list string) (val_rows train_rows : list gcc_row)
    : result (list split_generator) :=
  code ← index (split underscore (subset_id cfg)) 2;
  current_lang ← match LANGUAGE_MAP !! code with
                 | Some l => Ok l
                 | None => Raise KeyError
                 end;
  match data_dir with
  | None => Raise ValueError
  | Some _ =>
      let dev_handler := open dev in
      let gcc_val_df := side_table val_rows in
      let trn_handler := open train in
      let gcc_trn_df := side_table train_rows in
      Ok [SplitGenerator "train" (trn_handler, gcc_trn_df) current_lang "train";
          SplitGenerator "validation" (dev_handler, gcc_val_df) current_lang "dev"]
  end.

(** The generator of a split run with its [gen_kwargs]. *)
Definition generate_split (json_loads : string → option value) (cfg : config)
    (g : split_generator) : run :=
  _generate_examples json_loads cfg (gen_data g).2 (gen_lang g) (gen_data g).1.


(** [_info]: the variable [features] is bound by the two branches only. *)
Definition _info (cfg : config) : result features :=
  if bool_decide (schema cfg = "source") then
    Ok (Features ["id"; "image_paths"; "src_lang"; "caption_tokenized"; "trg_lang";
                  "translation_tokenized"; "backtranslation_tokenized"])
  else if bool_decide (schema cfg = "seacrowd_imtext") then
    Ok (SchemaFeatures "image_text_features")
  else Raise UnboundLocalError.
End CC3M35L.

(** ** Indonesian-Madurese Bible translation
       ([indonesian_madurese_bible_translation.py]) *)

Module IndMad.

(** A generator run: what is yielded, and how the generator stops. *)
Record run := Run {
  yields : list (Z * dict);
  outcome : result unit;
}.

Definition yield (y : Z * dict) (r : run) : run := Run (y :: yields r) (outcome r).

(** The inner loop of [_split_generators] over the lines of one file:
    [all_data] and [id] are the two variables it updates. *)
Fixpoint read_lines (data : list string) (all_data : list dict) (id : Z)
    : result (list dict * Z) :=
  match data with
  | [] => Ok (all_data, id)
  | line :: data' =>
      if bool_decide (line ≠ String newline EmptyString) then
        src ← index (split tab line) 0;
        tgt ← index (split tab line) 1;
        read_lines data'
          (all_data ++ [mkdict [("src", VStr src); ("tgt", VStr tgt); ("id", VInt id)]])
          (id + 1)
      else read_lines data' all_data (id + 1)
  end.

(** The outer loop, over the files kept in [all_path]. *)
Fixpoint read_files (files : list (list string)) (all_data : list dict) (id : Z)
    : result (list dict * Z) :=
  match files with
  | [] => Ok (all_data, id)
  | data :: files' =>
      '(all_data', id') ← read_lines data all_data id;
      read_files files' all_data' id'
  end.

(** [_split_generators]: [listing] is the content of the corpus directory,
    every item with the lines [_read_txt] reads from it. The result is what
    is written to [train.jsonl]. *)
Definition _split_generators (data_dir : string) (listing : list (string * list string))
    : result (list dict) :=
  let all_raw_path := (λ item, (data_dir +:+ "/" +:+ item.1, item.2)) <$> listing in
  let all_path := filter (λ p, contains "txt" p.1 = true) all_raw_path in
  fst <$> read_files (snd <$> all_path) [] 0.

(** [s.strip()] on a decoded field. *)
Definition strip_value (v : value) : result value :=
  match v with
  | VStr s => Ok (VStr (strip s))
  | _ => Raise AttributeError
  end.

Definition source_example (each_data : value) : result dict :=
  id ← getitem each_data "id";
  src ← getitem each_data "src";
  tgt ← getitem each_data "tgt";
  mret (mkdict [("id", id); ("src", src); ("tgt", tgt)]).

Definition t2t_example (each_data : value) : result dict :=
  id ← getitem each_data "id";
  src ← getitem each_data "src";
  text_1 ← strip_value src;
  tgt ← getitem each_data "tgt";
  text_2 ← strip_value tgt;
  mret (mkdict [("id", id); ("text_1", text_1); ("text_2", text_2);
                ("text_1_name", VStr "ind"); ("text_2_name", VStr "mad")]).

(** The [for each_data in f.iter()] loop with its counter [i]. *)
Fixpoint emit (mk : value → result dict) (records : list dict) (i : Z) : run :=
  match records with
  | [] => Run [] (Ok ())
  | each_data :: records' =>
      match mk (VDict each_data) with
      | Ok ex => yield (i, ex) (emit mk records' (i + 1))
      | Raise e => Run [] (Raise e)
      end
  end.

(** [_generate_examples] on the records of [train.jsonl]. *)
Definition _generate_examples (schema : string) (records : list dict) : run :=
  if bool_decide (schema = "source") then emit source_example records 0
  else if bool_decide (schema = "seacrowd_t2t") then emit t2t_example records 0
  else Run [] (Ok ()).

(** The lines of the files [_split_generators] keeps, in the order in which
    it reads them. *)
Definition kept_lines (data_dir : string) (listing : list (string * list string))
    : list string :=
  concat (filter (λ p, contains "txt" p.1 = true)
            ((λ item, (data_dir +:+ "/" +:+ item.1, item.2)) <$> listing)).*2.

(** A line the reader accepts: the line made of the line terminator only,
    which it skips, or a line with a tab. *)
Definition tabbed (line : string) : bool :=
  bool_decide (line = String newline EmptyString) || negb (count tab line =? 0)%nat.

(** Closed form of what [read_lines] appends when every line is accepted:
    one record for every line that is not skipped, numbered by the place of
    the line. *)
Definition field (n : nat) (line : string) : string :=
  default EmptyString (split tab line !! n).

Fixpoint records_from (data : list string) (id : Z) : list dict :=
  match data with
  | [] => []
  | line :: data' =>
      (if bool_decide (line ≠ String newline EmptyString)
       then [mkdict [("src", VStr (field 0 line)); ("tgt", VStr (field 1 line)); ("id", VInt id)]]
       else []) ++ records_from data' (id + 1)
  end.

(** The numbers [read_lines] gives to the lines it does not skip. *)
Fixpoint numbers_from (data : list string) (id : Z) : list Z :=
  match data with
  | [] => []
  | line :: data' =>
      (if bool_decide (line ≠ String newline EmptyString) then [id] else [])
      ++ numbers_from data' (id + 1)
  end.

(** One pass over the train split: the records [_split_generators] writes
    are the ones [_generate_examples] reads back. *)
Definition load (schema data_dir : string) (listing : list (string * list string))
    : result run :=
  records ← _split_generators data_dir listing;
  mret (_generate_examples schema records).

(** *** The configurations and the paths *)

Definition _DATASETNAME : string := "indonesian_madurese_bible_translation".

Definition BUILDER_CONFIGS : list CC3M35L.config :=
  [CC3M35L.Config (_DATASETNAME +:+ "_source") "source" _DATASETNAME;
   CC3M35L.Config (_DATASETNAME +:+ "_seacrowd_t2t") "seacrowd_t2t" _DATASETNAME].

Definition DEFAULT_CONFIG_NAME : string := "indonesian_madurese_bible_translation_source".

(** The corpus directory under the directory the archive is extracted to,
    the path [_write_jsonl] is called with, and the [filepath] handed to
    [_generate_examples]. *)
Definition corpus_dir (extracted : string) : string :=
  path_join extracted "Bahasa Madura Corpus Dataset/Indonesian-Madurese Corpus".

Definition written_path (data_dir : string) : string := data_dir +:+ "/train.jsonl".

Definition filepath (data_dir : string) : string := path_join data_dir "train.jsonl".


(** [_info]: the variable [features] is bound by the two branches only. *)
Definition _info (cfg : CC3M35L.config) : result features :=
  if bool_decide (CC3M35L.schema cfg = "source") then
    Ok (Features ["id"; "src"; "tgt"])
  else if bool_decide (CC3M35L.schema cfg = "seacrowd_t2t") then
    Ok (SchemaFeatures "text2text_features")
  else Raise UnboundLocalError.
End IndMad.

(** ** ViCon ([vicon.py]) *)

Module ViCon.

Record run := Run {
  yields : list (Z * dict);
  outcome : result unit;
}.

Definition yield (y : Z * dict) (r : run) : run := Run (y :: yields r) (outcome r).

(** A row of the frame: the column names with the cells under them; a cell a
    short line does not have is [None]. *)
Definition row : Type := list (string * option string).

(** [pd.DataFrame(data, columns=columns)] on a list of lists: the widest row
    must have as many cells as there are columns, and shorter rows are
    completed. The rows are labelled 0, 1, 2, ... *)
Definition pad (n : nat) (cells : list string) : list (option string) :=
  (Some <$> cells) ++ replicate (n - length cells) None.

Definition DataFrame (data : list (list string)) (columns : list string)
    : result (list (Z * row)) :=
  let width := foldr Nat.max 0%nat (length <$> data) in
  if bool_decide (data ≠ [] ∧ width ≠ length columns) then Raise ValueError
  else Ok (zip (Z.of_nat <$> seq 0 (length data))
               ((λ cells, zip columns (pad (length columns) cells)) <$> data)).

(** [row[c]]: the cell under the column named [c] (column names of the data
    files are distinct). *)
Fixpoint cell (r : row) (c : string) : result (option string) :=
  match r with
  | [] => Raise KeyError
  | (c', x) :: r' => if bool_decide (c' = c) then Ok x else cell r' c
  end.

(** [str(x)] on a cell. *)
Definition str_cell (x : option string) : string :=
  match x with Some s => s | None => "None" end.

Definition cell_value (x : option string) : value :=
  match x with Some s => VStr s | None => VNone end.

(** [row.to_dict()] *)
Definition to_dict (r : row) : dict :=
  mkdict (prod_map id cell_value <$> r).

(** The record of the [seacrowd_pairs] schema, a dict display with four
    items. *)
Definition pairs_example (index : Z) (r : row) : result dict :=
  word1 ← cell r "Word1";
  word2 ← cell r "Word2";
  relation ← cell r "Relation";
  mret (mkdict [
    ("id", VStr (str_int index));
    ("text_1", VStr (str_cell word1));
    ("text_1", VStr (str_cell word2));
    ("label", VStr (str_cell relation))]).

(** The [for index, row in df.iterrows()] loop. [example] is the variable of
    that name: unbound until a branch assigns it. *)
Fixpoint emit (schema : string) (rows : list (Z * row)) (example : option dict) : run :=
  match rows with
  | [] => Run [] (Ok ())
  | (index, r) :: rows' =>
      let assigned :=
        if bool_decide (schema = "source") then Ok (Some (to_dict r))
        else if bool_decide (schema = "seacrowd_pairs") then Some <$> pairs_example index r
        else Ok example in
      match assigned with
      | Raise e => Run [] (Raise e)
      | Ok None => Run [] (Raise UnboundLocalError)
      | Ok (Some ex) => yield (index, ex) (emit schema rows' (Some ex))
      end
  end.

(** [_generate_examples] on the lines of the pairs file. *)
Definition _generate_examples (schema : string) (lines : list string) : run :=
  let data := (λ line, split tab (strip line)) <$> lines in
  match index data 0 ≫= DataFrame (tail data) with
  | Raise e => Run [] (Raise e)
  | Ok df => emit schema df None
  end.

(** *** The configurations and the split generator *)

Definition _DATASETNAME : string := "vicon".

Definition TYPES : list string := ["noun"; "adj"; "verb"].

Definition _URLS : gmap string string :=
  <["verb" := "https://www.ims.uni-stuttgart.de/documents/ressourcen/experiment-daten/ViData.zip"]>
  (<["adj" := "https://www.ims.uni-stuttgart.de/documents/ressourcen/experiment-daten/ViData.zip"]>
  (<["noun" := "https://www.ims.uni-stuttgart.de/documents/ressourcen/experiment-daten/ViData.zip"]> ∅)).

Definition BUILDER_CONFIGS : list CC3M35L.config :=
  ((λ TYPE, CC3M35L.Config (_DATASETNAME +:+ "_" +:+ TYPE +:+ "_source") "source"
                           (_DATASETNAME +:+ "_" +:+ TYPE)) <$> TYPES) ++
  ((λ TYPE, CC3M35L.Config (_DATASETNAME +:+ "_" +:+ TYPE +:+ "_seacrowd_pairs") "seacrowd_pairs"
                           (_DATASETNAME +:+ "_" +:+ TYPE)) <$> TYPES).

Definition DEFAULT_CONFIG_NAME : string := _DATASETNAME +:+ "_noun_source".

(** The variable [number], bound by two of the three branches only. *)
Definition number_of (TYPE : string) : option Z :=
  if bool_decide (TYPE = "noun") || bool_decide (TYPE = "verb") then Some 400
  else if bool_decide (TYPE = "adj") then Some 600
  else None.

Definition url_of (TYPE : string) : result string :=
  match _URLS !! TYPE with Some u => Ok u | None => Raise KeyError end.

Section split_generators.

(** [dl_manager.download_and_extract], from a URL to a local directory. *)
Variable download_and_extract : string → string.

(** [_split_generators] for the configuration named [name]: the [filepath]
    of the train split. In the [else] branch [data_dir] is a list, and the
    path is never built, since [number] is unbound there. *)
Definition _split_generators (name : string) : result string :=
  TYPE ← index (split underscore name) 1;
  let number := number_of TYPE in
  data_dir ← (if bool_decide (TYPE ∈ TYPES)
              then inl <$> (download_and_extract <$> url_of TYPE)
              else inr <$> mapM (λ T, download_and_extract <$> url_of T) TYPES);
  match number with
  | None => Raise UnboundLocalError
  | Some n =>
      match data_dir with
      | inl d => Ok (path_join d ("ViData/ViCon/" +:+ str_int n +:+ "_" +:+ TYPE +:+ "_pairs.txt"))
      | inr _ => Raise TypeError
      end
  end.

End split_generators.


(** [_info]: the variable [features] is bound by the two branches only. *)
Definition _info (cfg : CC3M35L.config) : result features :=
  if bool_decide (CC3M35L.schema cfg = "source") then
    Ok (Features ["Word1"; "Word2"; "Relation"])
  else if bool_decide (CC3M35L.schema cfg = "seacrowd_pairs") then
    Ok (SchemaFeatures "pairs_features")
  else Raise UnboundLocalError.
End ViCon.

(** ** UIT-ViCoV19QA ([uit_vicov19qa.py]) *)

Module ViCoV19QA.

Record run := Run {
  yields : list (Z * dict);
  outcome : result unit;
}.

Definition yield (y : Z * dict) (r : run) : run := Run (y :: yields r) (outcome r).

(** A cell of the frame [pd.read_csv] returns: an integer or a string
    ([na_filter=False] leaves no missing value). *)
Inductive cell := CInt (z : Z) | CStr (s : string).

Definition cell_value (c : cell) : value :=
  match c with CInt z => VInt z | CStr s => VStr s end.

Definition str_cell (c : cell) : string :=
  match c with CInt z => str_int z | CStr s => s end.

Definition source_example (eid : Z) (exam : list cell) : result dict :=
  exam_id ← index exam 0;
  exam_quest ← index exam 1;
  let exam_answers := VList (cell_value <$> drop 2 exam) in
  mret (mkdict [("id", VStr (str_cell exam_id));
                ("question", cell_value exam_quest);
                ("answers", exam_answers)]).

Definition qa_example (eid : Z) (exam : list cell) : result dict :=
  exam_id ← index exam 0;
  exam_quest ← index exam 1;
  let exam_answers := VList (cell_value <$> drop 2 exam) in
  mret (mkdict [("id", VStr (str_int eid));
                ("question_id", cell_value exam_id);
                ("document_id", VStr (str_int eid));
                ("question", cell_value exam_quest);
                ("type", VNone);
                ("choices", VList []);
                ("context", VNone);
                ("answer", exam_answers);
                ("meta", VDict ∅)]).

(** The [for eid, exam in raw_examples.iterrows()] loop; a schema that is
    neither of the two yields nothing for the row. *)
Fixpoint emit (schema : string) (rows : list (list cell)) (eid : Z) : run :=
  match rows with
  | [] => Run [] (Ok ())
  | exam :: rows' =>
      if bool_decide (schema = "source") then
        match source_example eid exam with
        | Ok ex => yield (eid, ex) (emit schema rows' (eid + 1))
        | Raise e => Run [] (Raise e)
        end
      else if bool_decide (schema = "seacrowd_qa") then
        match qa_example eid exam with
        | Ok ex => yield (eid, ex) (emit schema rows' (eid + 1))
        | Raise e => Run [] (Raise e)
        end
      else
        match index exam 0 ≫= λ _, index exam 1 with
        | Ok _ => emit schema rows' (eid + 1)
        | Raise e => Run [] (Raise e)
        end
  end.

(** [_generate_examples] on the rows of the frame read from the file. *)
Definition _generate_examples (schema : string) (raw_examples : list (list cell)) : run :=
  emit schema raw_examples 0.

(** *** The configurations and the split generators *)

Definition _DATASETNAME : string := "uit_vicov19qa".

Definition subsets : list string := ["1_ans"; "2_ans"; "3_ans"; "4_ans"].

Definition BUILDER_CONFIGS : list CC3M35L.config :=
  ((λ sset, CC3M35L.Config (_DATASETNAME +:+ "_" +:+ sset +:+ "_source") "source" sset)
     <$> subsets) ++
  ((λ sset, CC3M35L.Config (_DATASETNAME +:+ "_" +:+ sset +:+ "_seacrowd_qa") "seacrowd_qa" sset)
     <$> subsets).

Definition DEFAULT_CONFIG_NAME : string := _DATASETNAME +:+ "_source".


(** [_info]: here the last branch raises. *)
Definition _info (cfg : CC3M35L.config) : result features :=
  if bool_decide (CC3M35L.schema cfg = "source") then
    Ok (Features ["id"; "question"; "answers"])
  else if bool_decide (CC3M35L.schema cfg = "seacrowd_qa") then
    Ok (SchemaFeatures "qa_features")
  else Raise ValueError.

Definition _URLS : gmap string (gmap string string) :=
  <["4_ans" :=
      <["test" := "https://raw.githubusercontent.com/triet2397/UIT-ViCoV19QA/main/dataset/4_ans/UIT-ViCoV19QA_test.csv"]>
     (<["val" := "https://raw.githubusercontent.com/triet2397/UIT-ViCoV19QA/main/dataset/4_ans/UIT-ViCoV19QA_val.csv"]>
     (<["train" := "https://raw.githubusercontent.com/triet2397/UIT-ViCoV19QA/main/dataset/4_ans/UIT-ViCoV19QA_train.csv"]> ∅))]>
 (<["3_ans" :=
      <["test" := "https://raw.githubusercontent.com/triet2397/UIT-ViCoV19QA/main/dataset/3_ans/UIT-ViCoV19QA_test.csv"]>
     (<["val" := "https://raw.githubusercontent.com/triet2397/UIT-ViCoV19QA/main/dataset/3_ans/UIT-ViCoV19QA_val.csv"]>
     (<["train" := "https://raw.githubusercontent.com/triet2397/UIT-ViCoV19QA/main/dataset/3_ans/UIT-ViCoV19QA_train.csv"]> ∅))]>
 (<["2_ans" :=
      <["test" := "https://raw.githubusercontent.com/triet2397/UIT-ViCoV19QA/main/dataset/2_ans/UIT-ViCoV19QA_test.csv"]>
     (<["val" := "https://raw.githubusercontent.com/triet2397/UIT-ViCoV19QA/main/dataset/2_ans/UIT-ViCoV19QA_val.csv"]>
     (<["train" := "https://raw.githubusercontent.com/triet2397/UIT-ViCoV19QA/main/dataset/2_ans/UIT-ViCoV19QA_train.csv"]> ∅))]>
 (<["1_ans" :=
      <["test" := "https://raw.githubusercontent.com/triet2397/UIT-ViCoV19QA/main/dataset/1_ans/UIT-ViCoV19QA_test.csv"]>
     (<["val" := "https://raw.githubusercontent.com/triet2397/UIT-ViCoV19QA/main/dataset/1_ans/UIT-ViCoV19QA_val.csv"]>
     (<["train" := "https://raw.githubusercontent.com/triet2397/UIT-ViCoV19QA/main/dataset/1_ans/UIT-ViCoV19QA_train.csv"]> ∅))]> ∅))).

(** A [datasets.SplitGenerator] with its [gen_kwargs]. *)
Record split_generator := SplitGenerator {
  gen_name : string;
  gen_filepath : string;
  gen_split : string;
}.

Section split_generators.

(** [dl_manager.download_and_extract] on one URL; on a dict of URLs it
    answers with the dict of the local paths under the same keys. *)
Variable download_and_extract : string → string.

Definition data_path (data_dir : gmap string string) (key : string) : result string :=
  match data_dir !! key with Some p => Ok p | None => Raise KeyError end.

Definition _split_generators (cfg : CC3M35L.config) : result (list split_generator) :=
  let subset_id := CC3M35L.subset_id cfg in
  urls ← match _URLS !! subset_id with Some u => Ok u | None => Raise KeyError end;
  let data_dir := download_and_extract <$> urls in
  train ← data_path data_dir "train";
  val ← data_path data_dir "val";
  test ← data_path data_dir "test";
  mret [SplitGenerator "train" train "train";
        SplitGenerator "validation" val "val";
        SplitGenerator "test" test "test"].

End split_generators.
End ViCoV19QA.

(** ** Scenarios used by the examples *)

Module Scenario.

(** The text of a stream record, written as [json.dumps] writes a flat
    object, and the value [json.loads] gives back for it. *)
Definition quote : string := String (ascii_of_nat 34) EmptyString.
Definition nl : string := String newline EmptyString.

Definition json_str (s : string) : string := quote +:+ s +:+ quote.

Definition json_object (fields : list (string * string)) : string :=
  "{" +:+ String.concat ", " ((λ kv, json_str kv.1 +:+ ": " +:+ kv.2) <$> fields) +:+ "}".

Definition record_text (trg_lang : string) (rec_num : Z)
    (caption translation backtranslation : string) : string :=
  json_object [
    ("trg_lang", json_str trg_lang);
    ("rec_num", str_int rec_num);
    ("caption_tokenized", json_str caption);
    ("translation_tokenized", json_str translation);
    ("backtranslation_tokenized", json_str backtranslation)].

Definition record_value (trg_lang : string) (rec_num : Z)
    (caption translation backtranslation : string) : value :=
  VDict (mkdict [
    ("trg_lang", VStr trg_lang);
    ("rec_num", VInt rec_num);
    ("caption_tokenized", VStr caption);
    ("translation_tokenized", VStr translation);
    ("backtranslation_tokenized", VStr backtranslation)]).

(** A decoder that knows the records of a scenario and rejects any other
    text. *)
Fixpoint loads_table (table : list (string * value)) (s : string) : option value :=
  match table with
  | [] => None
  | (text, v) :: table' => if bool_decide (text = s) then Some v else loads_table table' s
  end.

Definition loads_records (records : list (string * Z * string * string * string))
    : string → option value :=
  loads_table ((λ '(l, n, c, t, b), (record_text l n c t b, record_value l n c t b)) <$> records).

Definition line_of (r : string * Z * string * string * string) : string :=
  let '(l, n, c, t, b) := r in record_text l n c t b +:+ nl.

(** Two rows of the side table, and three records: two translated to
    Vietnamese, one to Thai. *)
Definition gcc_rows : list CC3M35L.gcc_row :=
  [CC3M35L.GccRow "cat on mat" "http://x/1"; CC3M35L.GccRow "dog on rug" "http://x/2"].

Definition gcc_df : CC3M35L.DataFrame := CC3M35L.side_table gcc_rows.

Definition cat_vi := ("vi", 1, "cat on mat", "con meo tren tham", "cat on the mat").
Definition cat_th := ("th", 1, "cat on mat", "maeo bon suea", "cat on a mat").
Definition dog_vi := ("vi", 2, "dog on rug", "con cho tren tam tham", "dog on the rug").

Definition json_loads : string → option value := loads_records [cat_vi; cat_th; dog_vi].

Definition cfg_imtext : CC3M35L.config :=
  CC3M35L.Config "cc3m_35l_vie_seacrowd_imtext" "seacrowd_imtext" "cc3m_35l_vie".
Definition cfg_source : CC3M35L.config :=
  CC3M35L.Config "cc3m_35l_vie_source" "source" "cc3m_35l_vie".

(** The record built for [cat_vi] under the image-text schema with
    identifier 0, and the one for [dog_vi] with identifier 1. *)
Definition cat_example : dict :=
  mkdict [("id", VStr "0"); ("image_paths", VList [VStr "http://x/1"]);
          ("texts", VStr "con meo tren tham");
          ("metadata", VDict (mkdict [("context", VNone); ("labels", VNone)]))].

Definition dog_example (id : string) : dict :=
  mkdict [("id", VStr id); ("image_paths", VList [VStr "http://x/2"]);
          ("texts", VStr "con cho tren tam tham");
          ("metadata", VDict (mkdict [("context", VNone); ("labels", VNone)]))].

(** A corpus file of the Indonesian-Madurese loader with an empty line
    between two sentence pairs, and a pairs file of ViCon. *)
Definition tsv (cells : list string) : string :=
  String.concat (String tab EmptyString) cells +:+ nl.

Definition bible_listing : list (string * list string) :=
  [("kejadian.txt", [tsv ["Pada mulanya"; "E dhalem kabidan"]; nl; tsv ["Jadilah terang"; "Terang kodu badha"]])].

(** A side table where two rows have the caption of [dog_vi], and downloads
    that fail for the first of them. *)
Definition gcc_df_twice : CC3M35L.DataFrame :=
  CC3M35L.side_table (gcc_rows ++ [CC3M35L.GccRow "dog on rug" "http://x/3"]).

Definition flaky_download (url : string) : option string :=
  if bool_decide (url = "http://x/2") then None else Some ("/cache/" +:+ url).

(** A question file of UIT-ViCoV19QA whose first row has the identifier 7. *)
Definition qa_rows : list (list ViCoV19QA.cell) :=
  [[ViCoV19QA.CInt 7; ViCoV19QA.CStr "Covid-19 la gi?"; ViCoV19QA.CStr "La mot benh."]].

Definition vicon_lines : list string :=
  [tsv ["Word1"; "Word2"; "Relation"]; tsv ["hot"; "cold"; "ANT"]].


(** The records for [cat_vi] and [dog_vi] under the source schema of
    [cfg_source], with the identifiers 0 and 1. *)
Definition cat_source_example : dict :=
  mkdict [("id", VStr "0"); ("image_paths", VStr "http://x/1"); ("src_lang", VStr "en");
          ("caption_tokenized", VStr "cat on mat"); ("trg_lang", VStr "vie");
          ("translation_tokenized", VStr "con meo tren tham");
          ("backtranslation_tokenized", VStr "cat on the mat")].

Definition dog_source_example : dict :=
  mkdict [("id", VStr "1"); ("image_paths", VStr "http://x/2"); ("src_lang", VStr "en");
          ("caption_tokenized", VStr "dog on rug"); ("trg_lang", VStr "vie");
          ("translation_tokenized", VStr "con cho tren tam tham");
          ("backtranslation_tokenized", VStr "dog on the rug")].

(** A Vietnamese record for position 2 without its translations, and a
    decoder that knows it beside [cat_vi]. *)
Definition bare_text : string :=
  json_object [("trg_lang", json_str "vi"); ("rec_num", str_int 2);
               ("caption_tokenized", json_str "dog on rug")].

Definition bare_value : value :=
  VDict (mkdict [("trg_lang", VStr "vi"); ("rec_num", VInt 2);
                 ("caption_tokenized", VStr "dog on rug")]).

Definition json_loads_bare : string → option value :=
  loads_table [(let '(l, n, c, t, b) := cat_vi in record_text l n c t b,
                let '(l, n, c, t, b) := cat_vi in record_value l n c t b);
               (bare_text, bare_value)].

(** A configuration with a schema of another loader. *)
Definition cfg_t2t : CC3M35L.config :=
  CC3M35L.Config "cc3m_35l_vie_seacrowd_t2t" "seacrowd_t2t" "cc3m_35l_vie".

(** What [_split_generators] of the Indonesian-Madurese loader writes for
    [bible_listing]. *)
Definition bible_records : list dict :=
  [mkdict [("src", VStr "Pada mulanya"); ("tgt", VStr ("E dhalem kabidan" +:+ nl));
           ("id", VInt 0)];
   mkdict [("src", VStr "Jadilah terang"); ("tgt", VStr ("Terang kodu badha" +:+ nl));
           ("id", VInt 2)]].

(** Downloads that land in one cache directory. *)
Definition cache (url : string) : string := "/cache/" +:+ url.
End Scenario.

(** * Properties *)

(** ** String operations *)

Section py_facts.

Lemma rstrip_blank s : blank s = true → rstrip s = EmptyString.
Proof.
  induction s as [|a s IH]; simpl; [done|].
  intros [Ha Hs]%andb_prop. by rewrite IH, Ha.
Qed.

Lemma rstrip_empty_blank s : rstrip s = EmptyString → blank s = true.
Proof.
  induction s as [|a s IH]; simpl; [done|].
  destruct (rstrip s) eqn:Hr; [|done].
  destruct (is_space a); [|done]. intros _. by rewrite IH.
Qed.

Lemma lstrip_blank s : blank s = true → lstrip s = EmptyString.
Proof.
  induction s as [|a s IH]; simpl; [done|].
  intros [Ha Hs]%andb_prop. rewrite Ha. auto.
Qed.

Lemma blank_lstrip s : blank (lstrip s) = blank s.
Proof.
  induction s as [|a s IH]; simpl; [done|].
  destruct (is_space a) eqn:Ha; simpl; [done|]. by rewrite Ha.
Qed.

(** A line strips to the empty string exactly when it is empty or made of
    whitespace only. *)
Lemma strip_empty_iff s : is_empty (strip s) = true ↔ blank s = true.
Proof.
  unfold strip. split.
  - intros H. rewrite <- blank_lstrip. apply rstrip_empty_blank.
    by destruct (rstrip (lstrip s)).
  - intros H. by rewrite lstrip_blank.
Qed.

Lemma split_length sep s : length (split sep s) = S (count sep s).
Proof.
  induction s as [|a s IH]; simpl; [done|].
  destruct (Ascii.eqb a sep); simpl; [by rewrite IH|].
  destruct (split sep s) as [|w ws]; simpl in *; lia.
Qed.

(** A key written twice in a dict display keeps the value written last. *)
Lemma mkdict_repeated_key pre k v1 v2 post :
  mkdict (pre ++ (k, v1) :: (k, v2) :: post) = mkdict (pre ++ (k, v2) :: post).
Proof.
  unfold mkdict. rewrite !foldl_app. cbn [foldl fst snd].
  by rewrite insert_insert_eq.
Qed.

End py_facts.

(** ** Keys and identifiers of the yielded records *)

Section keys_facts.

Lemma keys_from_nil i : keys_from i [].
Proof. done. Qed.


Lemma keys_from_NoDup i ys : keys_from i ys → NoDup ys.*1.
Proof.
  unfold keys_from. intros ->. apply NoDup_fmap_2; [|apply NoDup_seq].
  intros j1 j2. lia.
Qed.

End keys_facts.

(** ** CC3M-35L: the streaming join *)

Section cc3m_facts.

Import CC3M35L.

Variable json_loads : string → option value.
Variable cfg : config.
Variable gcc_df : DataFrame.
Variable lang : string.

Local Abbreviation loop := (loop json_loads cfg gcc_df lang).
Local Abbreviation make_example := (make_example cfg).
Local Abbreviation match_row := (match_row gcc_df).
Local Abbreviation accepted := (accepted json_loads lang).
Local Abbreviation other_language := (other_language json_loads lang).
Local Abbreviation generate := (_generate_examples json_loads cfg gcc_df lang).
Local Abbreviation handle_after := (handle_after json_loads cfg gcc_df lang).

Lemma yields_yield_pending idx c r :
  yields (yield_pending idx c r) = pend idx c ++ yields r.
Proof. by destruct c. Qed.

Lemma outcome_yield_pending idx c r : outcome (yield_pending idx c r) = outcome r.
Proof. by destruct c. Qed.

Lemma cursor_yield_pending idx c r : cursor (yield_pending idx c r) = cursor r.
Proof. by destruct c. Qed.

(** One turn of the loop, case by case. *)
Ltac loop_turn :=
  cbn [CC3M35L.loop];
  repeat first
    [ rewrite yields_yield_pending
    | rewrite outcome_yield_pending
    | rewrite cursor_yield_pending
    | match goal with
      | |- context [if is_empty ?s then _ else _] => destruct (is_empty s) eqn:?
      | |- context [match json_loads ?s with _ => _ end] =>
          destruct (json_loads s) as [?row|] eqn:?
      | |- context [match getitem ?r ?k with _ => _ end] =>
          destruct (getitem r k) as [?t|?e] eqn:?
      | |- context [if negb (eq_str ?t ?l) then _ else _] =>
          destruct (eq_str t l) eqn:?; cbn [negb]
      | |- context [match CC3M35L.match_row ?d ?r with _ => _ end] =>
          destruct (CC3M35L.match_row d r) as [[?cap ?url]|?e] eqn:?
      | |- context [match CC3M35L.make_example ?g ?i ?r ?c ?u with _ => _ end] =>
          destruct (CC3M35L.make_example g i r c u) as [?ex|?e] eqn:?
      end ];
  cbn [stop yields outcome cursor].

Lemma make_example_id idx row caption img_url c :
  make_example idx row caption img_url = Ok c → id_ok (idx, c).
Proof.
  unfold CC3M35L.make_example, id_ok. intros H.
  repeat case_bool_decide; [| |done].
  - destruct (index _ 2) as [trg|]; [simpl in H|done].
    destruct (getitem row "translation_tokenized") as [tr|]; [simpl in H|done].
    destruct (getitem row "backtranslation_tokenized") as [btr|]; [simpl in H|done].
    by injection H as <-.
  - destruct (getitem row "translation_tokenized") as [tr|]; [simpl in H|done].
    by injection H as <-.
Qed.

(** The cursor only matters for where the stream stands after an exception. *)
Lemma loop_pos rest pos pos' idx c :
  yields (loop rest pos idx c) = yields (loop rest pos' idx c) ∧
  outcome (loop rest pos idx c) = outcome (loop rest pos' idx c).
Proof.
  revert pos pos' idx c.
  induction rest as [|l rest IH]; intros pos pos' idx c; [done|].
  loop_turn; try done; try apply IH.
  by destruct (IH (S pos) (S pos') (idx + 1) (Some ex)) as [-> ->].
Qed.

(** A run that returns leaves the cursor at the beginning of the stream. *)
Lemma loop_returns_cursor rest pos idx c r :
  outcome (loop rest pos idx c) = Ok r → cursor (loop rest pos idx c) = 0%nat.
Proof.
  revert pos idx c.
  induction rest as [|l rest IH]; intros pos idx c; [done|].
  loop_turn; try done; apply IH.
Qed.



(** A record of another language leaves the identifier and the pending
    record as they are and yields nothing. *)
Lemma loop_other_language l rest pos idx c :
  other_language l = true → loop (l :: rest) pos idx c = loop rest (S pos) idx c.
Proof.
  unfold CC3M35L.other_language. intros H. loop_turn; try done.
  all: by rewrite ?andb_false_r in H.
Qed.

Lemma loop_app_other_language pre l post pos idx c :
  other_language l = true →
  yields (loop (pre ++ l :: post) pos idx c) = yields (loop (pre ++ post) pos idx c) ∧
  outcome (loop (pre ++ l :: post) pos idx c) = outcome (loop (pre ++ post) pos idx c).
Proof.
  intros Hl. revert pos idx c.
  induction pre as [|l' pre IH]; intros pos idx c.
  - simpl app. rewrite loop_other_language by done. apply loop_pos.
  - rewrite <- !app_comm_cons. loop_turn; try done; try apply IH.
    by destruct (IH (S pos) (idx + 1) (Some ex)) as [-> ->].
Qed.

Lemma accepted_app_other_language pre l post :
  other_language l = true → accepted (pre ++ l :: post) = accepted (pre ++ post).
Proof.
  intros H. induction pre as [|l' pre IH]; simpl.
  - unfold CC3M35L.other_language in H.
    destruct (is_empty (strip l)); [done|].
    destruct (json_loads (strip l)) as [row|]; [|done].
    destruct (getitem row "trg_lang") as [t|]; [|done].
    by destruct (eq_str t lang).
  - by rewrite IH.
Qed.

(** The state of the loop after a part of the stream is what a run on that
    part alone returns: the run on the whole stream goes on from there. *)
Lemma loop_app pre post pos idx c idx1 c1 :
  Forall (λ l, blank l = false) pre →
  outcome (loop pre pos idx c) = Ok (idx1, c1) →
  yields (loop (pre ++ post) pos idx c) =
    yields (loop pre pos idx c) ++ yields (loop post (pos + length pre) idx1 c1) ∧
  outcome (loop (pre ++ post) pos idx c) = outcome (loop post (pos + length pre) idx1 c1) ∧
  cursor (loop (pre ++ post) pos idx c) = cursor (loop post (pos + length pre) idx1 c1).
Proof.
  intros Hpre. revert pos idx c.
  induction Hpre as [|l pre Hl Hpre IH]; intros pos idx c.
  { cbn. intros [= <- <-]. by rewrite Nat.add_0_r. }
  assert (is_empty (strip l) = false) as Hne.
  { apply not_true_is_false. rewrite strip_empty_iff. by rewrite Hl. }
  rewrite <- app_comm_cons. cbn [length]. rewrite Nat.add_succ_r, <- Nat.add_succ_l.
  loop_turn; try done; try apply IH.
  intros H. destruct (IH _ _ _ H) as (-> & -> & ->).
  by rewrite List.app_assoc.
Qed.

(** What a run that returns has handed out: the pending record it started
    with and one record for each accepted stream record, numbered from
    [idx + 1] on, all but the last of them yielded and the last one
    returned. *)
Lemma loop_returns rest pos idx c idx' c' :
  outcome (loop rest pos idx c) = Ok (idx', c') →
  let k := length (accepted rest) in
  idx' = idx + Z.of_nat k ∧
  (yields (loop rest pos idx c) ++ pend idx' c').*1 =
    (pend idx c).*1 ++ ((λ j, idx + 1 + Z.of_nat j) <$> seq 0 k) ∧
  (k = 0%nat → c' = c) ∧
  (k ≠ 0%nat → is_Some c') ∧
  (Forall id_ok (pend idx c) → Forall id_ok (yields (loop rest pos idx c) ++ pend idx' c')).
Proof.
  revert pos idx c.
  induction rest as [|l rest IH]; intros pos idx c.
  { cbn. intros [= <- <-]. rewrite app_nil_r. split_and!; [lia|done..]. }
  cbn [CC3M35L.accepted]. loop_turn; try done; try apply IH.
  - intros [= <- <-]. cbn. rewrite app_nil_r. split_and!; [lia|done..].
  - intros H. destruct (IH _ _ _ H) as (-> & Hy & H0 & Hk & Hid).
    cbn [length]. split_and!.
    + lia.
    + rewrite <- List.app_assoc, fmap_app, Hy. cbn [pend fmap list_fmap fst].
      f_equal. cbn [seq app]. rewrite fmap_cons.
      f_equal; [lia|].
      rewrite <- fmap_S_seq, <- list_fmap_compose. apply list_fmap_ext.
      intros _ j _. simpl. lia.
    + done.
    + intros _. destruct (length (accepted rest)) eqn:Hlen.
      * rewrite H0 by done. by eexists.
      * by apply Hk.
    + intros Hc. rewrite <- List.app_assoc. apply Forall_app. split; [done|].
      apply Hid. apply Forall_singleton. by eapply make_example_id.
Qed.



(** What the loop matches on is what [readline] reads: at the end of the
    file the empty string, with the cursor left where it is, and otherwise
    the next line, with the cursor after it. *)
Lemma readline_drop (h : handle) :
  match drop (pos h) (lines h) with
  | [] => readline h = (EmptyString, h)
  | l :: rest =>
      readline h = (l, Handle (lines h) (S (pos h))) ∧
      rest = drop (S (pos h)) (lines h)
  end.
Proof.
  unfold readline. destruct h as [ls p]. cbn [lines pos].
  destruct (ls !! p) as [l|] eqn:Hl.
  - by rewrite (drop_S _ _ _ Hl).
  - apply lookup_ge_None in Hl. by rewrite drop_ge.
Qed.

(** The run described with the shared characterisation of what a returning
    run has handed out. *)
Lemma generate_returns (split_handler : handle) idx c_data :
  outcome (generate split_handler) = Ok (idx, c_data) →
  let k := length (accepted (drop (pos split_handler) (lines split_handler))) in
  (yields (generate split_handler)).*1 = Z.of_nat <$> seq 0 (k - 1) ∧
  idx = -1 + Z.of_nat k ∧
  Forall id_ok (yields (generate split_handler)) ∧
  Forall id_ok (pend idx c_data) ∧
  (c_data = None ↔ k = 0%nat).
Proof.
  unfold CC3M35L._generate_examples. intros H.
  destruct (loop_returns _ _ _ _ _ _ H) as (Hidx & Hy & H0 & Hk & Hid).
  cbn zeta in *.
  set (k := length (accepted (drop (pos split_handler) (lines split_handler)))) in *.
  cbn [pend fmap list_fmap app] in Hy.
  specialize (Hid (Forall_nil_2 _)). apply Forall_app in Hid as [Hid1 Hid2].
  split_and!; try done.
  - destruct k as [|k'].
    + rewrite H0 in Hy by done. cbn in Hy. by rewrite app_nil_r in Hy.
    + destruct (Hk ltac:(done)) as [d ->]. cbn [pend] in Hy.
      rewrite fmap_app, seq_S, fmap_app in Hy. cbn in Hy.
      apply app_inj_tail in Hy as [Hy _]. rewrite Hy.
      replace (S k' - 1)%nat with k' by lia.
      apply list_fmap_ext. intros _ j _. lia.
  - split.
    + intros ->. destruct k; [done|]. by destruct (Hk ltac:(done)).
    + intros Hk0. by rewrite H0.
Qed.

Lemma generate_open content : generate (open content) = loop content 0 (-1) None.
Proof. unfold CC3M35L._generate_examples. cbn [pos lines open]. by rewrite drop_0. Qed.

(** *** The identifiers handed out *)

(** C2. Whenever generation returns, with [k] stream records accepted by the
    language filter: the identifier starts at -1 and ends at [k - 1], every
    record carries its identifier in its ["id"] field, but the identifiers
    that are yielded are 0, 1, ..., k-2 only (there are [k - 1] of them, without
    gap or repeat); the identifier [k - 1] is the one of the record that is
    returned and not yielded. *)
Theorem yielded_identifiers (split_handler : handle) idx c_data :
  outcome (generate split_handler) = Ok (idx, c_data) →
  let k := length (accepted (drop (pos split_handler) (lines split_handler))) in
  (yields (generate split_handler)).*1 = Z.of_nat <$> seq 0 (k - 1) ∧
  idx = -1 + Z.of_nat k ∧
  Forall id_ok (yields (generate split_handler)) ∧
  Forall id_ok (pend idx c_data) ∧
  (c_data = None ↔ k = 0%nat).
Proof. apply generate_returns. Qed.

(** *** Records of another language *)

(** C5. A stream record whose tag is not the requested language is skipped
    entirely: the turn of the loop that reads it passes the identifier and
    the pending record on unchanged and yields nothing, and a whole run hands
    out what it hands out on the stream without that record. *)
Theorem other_language_skipped l :
  other_language l = true →
  (∀ rest pos idx c_data,
     loop (l :: rest) pos idx c_data = loop rest (S pos) idx c_data) ∧
  (∀ pre post,
     yields (generate (open (pre ++ l :: post))) = yields (generate (open (pre ++ post))) ∧
     outcome (generate (open (pre ++ l :: post))) = outcome (generate (open (pre ++ post))) ∧
     accepted (pre ++ l :: post) = accepted (pre ++ post)).
Proof.
  intros Hl. split.
  - intros. by apply loop_other_language.
  - intros pre post. rewrite !generate_open.
    destruct (loop_app_other_language pre l post 0 (-1) None Hl) as [-> ->].
    by rewrite accepted_app_other_language.
Qed.

(** *** The end of the stream *)

(** C6. When generation returns: the cursor of the stream is back at 0; what
    is returned is the current identifier with the pending record, which is
    the last record built and has not been yielded; and at any time, that is
    after any part [pre] of the stream has been read, the records built so
    far are the ones yielded so far and exactly one more, the pending one
    (none while no record has been accepted). *)
Theorem end_of_stream_marker (split_handler : handle) idx c_data :
  outcome (generate split_handler) = Ok (idx, c_data) →
  handle_after split_handler = seek0 split_handler ∧
  (let k := length (accepted (drop (pos split_handler) (lines split_handler))) in
   idx = -1 + Z.of_nat k ∧
   (k = 0%nat → c_data = None ∧ yields (generate split_handler) = []) ∧
   (k ≠ 0%nat → ∃ c, c_data = Some c ∧ id_ok (idx, c) ∧
                  (idx ∉ (yields (generate split_handler)).*1) ∧
                  S (length (yields (generate split_handler))) = k)) ∧
  (∀ pre post idx1 c1,
     drop (pos split_handler) (lines split_handler) = pre ++ post →
     Forall (λ l, blank l = false) pre →
     outcome (loop pre (pos split_handler) (-1) None) = Ok (idx1, c1) →
     let yielded := yields (loop pre (pos split_handler) (-1) None) in
     yields (generate split_handler) =
       yielded ++ yields (loop post (pos split_handler + length pre) idx1 c1) ∧
     outcome (generate split_handler) =
       outcome (loop post (pos split_handler + length pre) idx1 c1) ∧
     (length yielded + length (pend idx1 c1))%nat = length (accepted pre) ∧
     (c1 = None ↔ accepted pre = [])).
Proof.
  intros H. split_and!.
  - unfold CC3M35L.handle_after, seek0. f_equal.
    by eapply loop_returns_cursor.
  - destruct (generate_returns _ _ _ H) as (Hy & Hidx & Hid1 & Hid2 & Hnone).
    cbn zeta. split_and!; [done| |].
    + intros Hk. rewrite Hk in Hy. cbn in Hy.
      split; [by apply Hnone|]. by apply fmap_nil_inv in Hy.
    + intros Hk. destruct c_data as [c|]; [|by destruct Hk; apply Hnone].
      cbn [pend] in Hid2. rewrite Forall_singleton in Hid2.
      exists c. split_and!; [done..| |].
      * rewrite Hy, Hidx. intros (j & Hj & Hin%elem_of_seq)%list_elem_of_fmap. lia.
      * apply (f_equal length) in Hy. rewrite !length_fmap, length_seq in Hy. lia.
  - intros pre post idx1 c1 Hsplit Hpre Hout. cbn zeta.
    unfold CC3M35L._generate_examples. rewrite Hsplit.
    destruct (loop_app pre post _ _ _ _ _ Hpre Hout) as (-> & -> & _).
    split_and!; [done..| |].
    + destruct (loop_returns _ _ _ _ _ _ Hout) as (_ & Hy & _ & _ & _).
      cbn [pend fmap list_fmap app] in Hy. apply (f_equal length) in Hy.
      by rewrite !length_fmap, length_app, length_seq in Hy.
    + destruct (loop_returns _ _ _ _ _ _ Hout) as (_ & _ & H0 & Hk & _).
      split.
      * intros ->. destruct (accepted pre); [done|].
        by destruct Hk as [? ?].
      * intros Hacc. rewrite Hacc in H0. by apply H0.
Qed.

(** *** Running again *)

(** C7. Once generation has run to its end on a stream read from the
    beginning, a second run on the same handle hands out the same records
    with the same identifiers, and returns the same value. *)
Theorem restart_idempotent (content : list string) r :
  outcome (generate (open content)) = Ok r →
  generate (handle_after (open content)) = generate (open content).
Proof.
  intros H. unfold CC3M35L.handle_after.
  assert (cursor (generate (open content)) = 0%nat) as ->; [|done].
  by eapply loop_returns_cursor.
Qed.

(** *** Blank lines *)


(** *** What the records hold *)

Local Abbreviation joined := (joined cfg gcc_df).

(** The records a returning run has handed out are, in order, the records
    built for the accepted stream records. *)
Lemma loop_joined rest pos idx c idx' c' :
  outcome (loop rest pos idx c) = Ok (idx', c') →
  ∃ built, yields (loop rest pos idx c) ++ pend idx' c' = pend idx c ++ built ∧
           Forall2 joined built (accepted rest).
Proof.
  revert pos idx c.
  induction rest as [|l rest IH]; intros pos idx c.
  { cbn. intros [= <- <-]. exists []. by rewrite app_nil_r. }
  cbn [CC3M35L.accepted]. loop_turn; try done; try apply IH.
  - intros [= <- <-]. exists []. by rewrite app_nil_r.
  - intros H. destruct (IH _ _ _ H) as (built & Hb & Hj).
    exists ((idx + 1, ex) :: built). split.
    + rewrite <- List.app_assoc, Hb. done.
    + constructor; [|done]. by exists cap, url.
Qed.

Lemma generate_joined (split_handler : handle) idx c_data :
  outcome (generate split_handler) = Ok (idx, c_data) →
  Forall2 joined (yields (generate split_handler) ++ pend idx c_data)
          (accepted (drop (pos split_handler) (lines split_handler))).
Proof.
  unfold CC3M35L._generate_examples. intros H.
  destruct (loop_joined _ _ _ _ _ _ H) as (built & -> & Hj). done.
Qed.




(** *** Exceptions in the middle of the stream *)

Local Abbreviation requested := (requested json_loads lang).

Lemma generate_app pre post idx1 c1 :
  Forall (λ l, blank l = false) pre →
  outcome (generate (open pre)) = Ok (idx1, c1) →
  yields (generate (open (pre ++ post))) =
    yields (generate (open pre)) ++ yields (loop post (length pre) idx1 c1) ∧
  outcome (generate (open (pre ++ post))) = outcome (loop post (length pre) idx1 c1) ∧
  cursor (generate (open (pre ++ post))) = cursor (loop post (length pre) idx1 c1).
Proof.
  rewrite !generate_open. intros Hpre H.
  apply (loop_app pre post 0 (-1) None idx1 c1 Hpre H).
Qed.

(** X3. When the lookups for an accepted record fail (no [rec_num], no
    [caption_tokenized], or no row of the side table with that label), the
    exception leaves the generator before anything is yielded for that
    turn: the record pending at that time is never yielded, and the cursor
    of the stream stays just after the failing line instead of going back to
    the beginning. *)
Theorem lookup_failure_drops_pending pre l post row e idx1 c1 :
  Forall (λ l, blank l = false) pre →
  outcome (generate (open pre)) = Ok (idx1, c1) →
  requested l row →
  match_row row = Raise e →
  let r := generate (open (pre ++ l :: post)) in
  yields r = yields (generate (open pre)) ∧
  outcome r = Raise e ∧
  cursor r = S (length pre) ∧
  idx1 ∉ (yields r).*1.
Proof.
  intros Hpre Hout (Hl & Hrow & t & Ht & Hlang) Hm. cbn zeta.
  destruct (generate_app pre (l :: post) idx1 c1 Hpre Hout) as (Hy & Ho & Hc).
  rewrite Hy, Ho, Hc. cbn [CC3M35L.loop].
  rewrite Hl, Hrow, Ht, Hlang, Hm. cbn [negb stop yields outcome cursor].
  rewrite app_nil_r. split_and!; [done..|].
  destruct (generate_returns _ _ _ Hout) as (Hk & Hidx & _).
  rewrite Hk, Hidx. intros (j & Hj & Hin%elem_of_seq)%list_elem_of_fmap. lia.
Qed.

(** X4. When the lookups succeed and it is the building of the record that
    fails (no [translation_tokenized], an unsupported schema, ...), the
    record pending at that time has been yielded before the exception leaves
    the generator; the cursor stays just after the failing line. *)
Theorem build_failure_after_yield pre l post row caption img_url e idx1 c1 :
  Forall (λ l, blank l = false) pre →
  outcome (generate (open pre)) = Ok (idx1, c1) →
  requested l row →
  match_row row = Ok (caption, img_url) →
  make_example (idx1 + 1) row caption img_url = Raise e →
  let r := generate (open (pre ++ l :: post)) in
  yields r = yields (generate (open pre)) ++ pend idx1 c1 ∧
  outcome r = Raise e ∧
  cursor r = S (length pre).
Proof.
  intros Hpre Hout (Hl & Hrow & t & Ht & Hlang) Hm He. cbn zeta.
  destruct (generate_app pre (l :: post) idx1 c1 Hpre Hout) as (Hy & Ho & Hc).
  rewrite Hy, Ho, Hc. cbn [CC3M35L.loop].
  rewrite Hl, Hrow, Ht, Hlang, Hm, He. cbn [negb].
  rewrite yields_yield_pending, outcome_yield_pending, cursor_yield_pending.
  cbn [stop yields outcome cursor]. by rewrite app_nil_r.
Qed.

(** X5. With a schema that is neither of the two the loader knows, nothing is
    ever yielded: building a record raises [ValueError], and generation
    returns only on a stream without any accepted record. *)
Theorem unsupported_schema_yields_nothing (split_handler : handle) :
  schema cfg ≠ "source" → schema cfg ≠ "seacrowd_imtext" →
  (∀ idx row caption img_url, make_example idx row caption img_url = Raise ValueError) ∧
  yields (generate split_handler) = [] ∧
  (∀ idx c_data, outcome (generate split_handler) = Ok (idx, c_data) →
     idx = -1 ∧ c_data = None ∧
     accepted (drop (pos split_handler) (lines split_handler)) = []).
Proof.
  intros H1 H2.
  assert (∀ idx row caption img_url,
            make_example idx row caption img_url = Raise ValueError) as Hmk.
  { intros. unfold CC3M35L.make_example. by rewrite !bool_decide_eq_false_2. }
  split; [done|]. unfold CC3M35L._generate_examples.
  generalize (drop (pos split_handler) (lines split_handler)) as rest.
  generalize (pos split_handler) as p. generalize (-1) as idx0.
  intros idx0 p rest. revert p.
  induction rest as [|l rest IH]; intros p.
  { split; [done|]. by intros idx c [= <- <-]. }
  cbn [CC3M35L.accepted]. loop_turn; try done; try apply IH.
  - split; [done|]. by intros idx c [= <- <-].
  - by rewrite Hmk in *.
Qed.

(** X6. The test the loop makes on the tag of a record is the one
    [is_target] makes: the loop skips the record where [is_target] returns
    nothing, accepts it where [is_target] returns the record, and raises
    where [is_target] raises. *)
Theorem is_target_is_the_filter l row rest pos idx c_data :
  is_empty (strip l) = false → json_loads (strip l) = Some row →
  (is_target row lang = Ok None →
     loop (l :: rest) pos idx c_data = loop rest (S pos) idx c_data ∧
     accepted (l :: rest) = accepted rest) ∧
  (is_target row lang = Ok (Some row) → accepted (l :: rest) = row :: accepted rest) ∧
  (∀ e, is_target row lang = Raise e →
     loop (l :: rest) pos idx c_data = stop (Raise e) (S pos)).
Proof.
  intros Hl Hrow. unfold is_target. cbn [CC3M35L.loop CC3M35L.accepted].
  rewrite Hl, Hrow. destruct (getitem row "trg_lang") as [t|e0]; cbn.
  - destruct (eq_str t lang); cbn; by split_and!.
  - split_and!; try done. by intros e [= ->].
Qed.

(** *** Invariants of the records *)

(** What holds of the pending record at the start and of every record that
    is built holds of every record handed out. *)
Lemma loop_built (P : Z * dict → Prop) rest pos idx c :
  (∀ i row caption img_url d, make_example i row caption img_url = Ok d → P (i, d)) →
  Forall P (pend idx c) →
  Forall P (yields (loop rest pos idx c)) ∧
  ∀ idx' c', outcome (loop rest pos idx c) = Ok (idx', c') → Forall P (pend idx' c').
Proof.
  intros Hmk. revert pos idx c.
  induction rest as [|l rest IH]; intros pos idx c Hc.
  { split; [constructor|]. by intros idx' c' [= <- <-]. }
  loop_turn; rewrite ?app_nil_r; try (split; [done || constructor|done]);
    try (by apply IH).
  - split; [constructor|]. by intros idx' c' [= <- <-].
  - assert (Forall P (pend (idx + 1) (Some ex))) as Hex.
    { apply Forall_singleton. by eapply Hmk. }
    destruct (IH (S pos) (idx + 1) (Some ex) Hex) as [Hy Ho].
    split; [by apply Forall_app|done].
Qed.

(** The accepted records carry the requested tag. *)
Lemma accepted_tagged rest :
  Forall (λ row, getitem row "trg_lang" = Ok (VStr lang)) (accepted rest).
Proof.
  induction rest as [|l rest IH]; [constructor|]. cbn [CC3M35L.accepted].
  destruct (is_empty (strip l)); [constructor|].
  destruct (json_loads (strip l)) as [row|]; [|constructor].
  destruct (getitem row "trg_lang") as [t|] eqn:Ht; [|constructor].
  destruct (eq_str t lang) eqn:He; [|done].
  constructor; [|done]. destruct t; try done. cbn in He.
  by apply bool_decide_eq_true in He as ->.
Qed.

End cc3m_facts.

(** *** The scenarios of the specification *)

Section cc3m_scenarios.

Import CC3M35L Scenario.

Local Abbreviation generate := (_generate_examples json_loads cfg_imtext gcc_df "vi").

(** C1. Side table [{1: (cat on mat, http://x/1), 2: (dog on rug,
    http://x/2)}], a stream with one Vietnamese record for position 1 and one
    Thai record, requested language ["vi"]: nothing is yielded. The one
    joined record, with identifier ["0"] and the reference [http://x/1], is
    built, but it is the value the generator returns. The same holds under
    the source schema and for the stream with the single record of position
    2. *)
Theorem single_match_returned_not_yielded :
  let r := generate (open [line_of cat_vi; line_of cat_th]) in
  yields r = [] ∧
  outcome r = Ok (0, Some cat_example) ∧
  cat_example !! "id" = Some (VStr "0") ∧
  cat_example !! "image_paths" = Some (VList [VStr "http://x/1"]) ∧
  yields (_generate_examples json_loads cfg_source gcc_df "vi"
            (open [line_of cat_vi; line_of cat_th])) = [] ∧
  yields (generate (open [line_of dog_vi])) = [] ∧
  outcome (generate (open [line_of dog_vi])) = Ok (0, Some (dog_example "0")).
Proof. vm_compute. split_and!; reflexivity. Qed.

Example two_matches_yield_one :
  let r := generate (open [line_of cat_vi; line_of cat_th; line_of dog_vi]) in
  yields r = [(0, cat_example)] ∧ outcome r = Ok (1, Some (dog_example "1")).
Proof. vm_compute. split; reflexivity. Qed.

Lemma yielded_identifiers_witness :
  let h := open [line_of cat_vi; line_of cat_th; line_of dog_vi] in
  outcome (generate h) = Ok (1, Some (dog_example "1")) ∧
  (yields (generate h)).*1 = [0] ∧
  1 = -1 + Z.of_nat 2.
Proof.
  assert (outcome (generate (open [line_of cat_vi; line_of cat_th; line_of dog_vi]))
          = Ok (1, Some (dog_example "1"))) as H by (vm_compute; reflexivity).
  split; [exact H|].
  destruct (yielded_identifiers json_loads cfg_imtext gcc_df "vi" _ _ _ H)
    as (Hy & Hidx & _).
  split; [exact Hy|exact Hidx].
Defined.

Lemma other_language_skipped_witness :
  other_language json_loads "vi" (line_of cat_th) = true ∧
  yields (generate (open ([line_of cat_vi] ++ line_of cat_th :: [line_of dog_vi]))) =
    yields (generate (open ([line_of cat_vi] ++ [line_of dog_vi]))).
Proof.
  split; [vm_compute; reflexivity|].
  apply (other_language_skipped json_loads cfg_imtext gcc_df "vi" (line_of cat_th)).
  vm_compute; reflexivity.
Defined.

Lemma end_of_stream_marker_witness :
  let h := open [line_of cat_vi; line_of cat_th; line_of dog_vi] in
  outcome (generate h) = Ok (1, Some (dog_example "1")) ∧
  handle_after json_loads cfg_imtext gcc_df "vi" h = seek0 h.
Proof.
  assert (outcome (generate (open [line_of cat_vi; line_of cat_th; line_of dog_vi]))
          = Ok (1, Some (dog_example "1"))) as H by (vm_compute; reflexivity).
  split; [exact H|].
  apply (end_of_stream_marker json_loads cfg_imtext gcc_df "vi" _ _ _ H).
Defined.

Lemma restart_idempotent_witness :
  let content := [line_of cat_vi; line_of cat_th; line_of dog_vi] in
  outcome (generate (open content)) = Ok (1, Some (dog_example "1")) ∧
  generate (handle_after json_loads cfg_imtext gcc_df "vi" (open content)) =
    generate (open content).
Proof.
  assert (outcome (generate (open [line_of cat_vi; line_of cat_th; line_of dog_vi]))
          = Ok (1, Some (dog_example "1"))) as H by (vm_compute; reflexivity).
  split; [exact H|].
  apply (restart_idempotent json_loads cfg_imtext gcc_df "vi" _ _ H).
Defined.


Example blank_line_hides_later_records :
  let r := generate (open [line_of cat_vi; nl; line_of dog_vi]) in
  yields r = [] ∧ outcome r = Ok (0, Some cat_example) ∧ cursor r = 0%nat.
Proof. vm_compute. split_and!; reflexivity. Qed.

End cc3m_scenarios.

(** *** The per-row image fetch *)

Section fill_img_path_facts.

Import CC3M35L.

Variable download : string → option string.

Local Abbreviation fetch_rows := (fetch_rows download).
Local Abbreviation fill_img_path := (fill_img_path download).

Local Abbreviation failing := (failing download).

Lemma fetch_rows_spec line translation backtranslation rows exceptions requests :
  getitem line "translation_tokenized" = Ok translation →
  getitem line "backtranslation_tokenized" = Ok backtranslation →
  fetch_rows line rows exceptions requests =
    Ok (exceptions ++ failing rows, requests ++ urls rows).
Proof.
  intros Ht Hb. revert exceptions requests.
  induction rows as [|[idx row] rows IH]; intros exceptions requests.
  { cbn. by rewrite !app_nil_r. }
  cbn [CC3M35L.fetch_rows]. rewrite Ht, Hb. cbn [mbind result_bind].
  unfold CC3M35L.failing, urls. rewrite filter_cons, fmap_cons. cbn [snd].
  destruct (download (img_url row)) as [path|] eqn:Hd; rewrite IH.
  - rewrite decide_False by done. by rewrite <- List.app_assoc.
  - rewrite decide_True by done. by rewrite fmap_cons, <- !List.app_assoc.
Qed.

(** C8. For a stream record [line] with its three text fields, whatever the
    downloads do, [fill_img_path] raises nothing and returns the matched
    rows together with the list of the indices of the rows whose download
    failed, in order; every matched row is asked for, failed downloads
    before it or not, and each exactly once. *)
Theorem download_failure_recorded df line caption translation backtranslation :
  getitem line "caption_tokenized" = Ok caption →
  getitem line "translation_tokenized" = Ok translation →
  getitem line "backtranslation_tokenized" = Ok backtranslation →
  fill_img_path df line =
    Ok (Fetched (query_caption df caption)
                (failing (query_caption df caption))
                (urls (query_caption df caption))).
Proof.
  intros Hc Ht Hb. unfold CC3M35L.fill_img_path.
  rewrite Hc. cbn [mbind result_bind].
  by rewrite (fetch_rows_spec _ _ _ _ _ _ Ht Hb).
Qed.

End fill_img_path_facts.

(** ** Indonesian-Madurese Bible translation *)

Section indmad_facts.

Import IndMad.

Local Abbreviation nl := (String newline EmptyString).

Lemma tabbed_spec line : tabbed line = true ↔ (line ≠ nl → count tab line ≠ 0%nat).
Proof.
  unfold tabbed. rewrite orb_true_iff, bool_decide_eq_true, negb_true_iff, Nat.eqb_neq.
  destruct (decide (line = nl)); tauto.
Qed.

Lemma index_split_0 line : index (split tab line) 0 = Ok (field 0 line).
Proof.
  unfold index, field. pose proof (split_length tab line).
  by destruct (split tab line).
Qed.

Lemma index_split_1 line :
  index (split tab line) 1 =
    if (count tab line =? 0)%nat then Raise IndexError else Ok (field 1 line).
Proof.
  unfold index, field. pose proof (split_length tab line) as Hlen.
  destruct (Nat.eqb_spec (count tab line) 0) as [H0|H0].
  - rewrite lookup_ge_None_2; [done|lia].
  - destruct (lookup_lt_is_Some_2 (split tab line) 1) as [x ->]; [lia|done].
Qed.

(** The reader goes through a file whose lines it accepts, and stops with
    [IndexError] at the first line it does not accept. *)
Lemma read_lines_tabbed data all_data id :
  forallb tabbed data = true →
  read_lines data all_data id =
    Ok (all_data ++ records_from data id, id + Z.of_nat (length data)).
Proof.
  revert all_data id.
  induction data as [|line data IH]; intros all_data id.
  { intros _. cbn. by rewrite app_nil_r, Z.add_0_r. }
  cbn [forallb]. intros [Hline Hdata]%andb_prop.
  cbn [read_lines records_from length]. unfold tabbed in Hline.
  destruct (decide (line = nl)) as [Hnl|Hnl].
  - rewrite !(bool_decide_eq_false_2 (line ≠ nl)) by (intros Hne; by apply Hne).
    rewrite IH by done. cbn [app]. do 2 f_equal. lia.
  - rewrite !(bool_decide_eq_true_2 (line ≠ nl)) by done.
    rewrite index_split_0, index_split_1. cbn [mbind result_bind].
    rewrite bool_decide_eq_false_2 in Hline by done. cbn in Hline.
    apply negb_true_iff in Hline. rewrite Hline. cbn [mbind result_bind].
    rewrite IH by done. rewrite <- List.app_assoc. do 2 f_equal. lia.
Qed.

Lemma read_lines_untabbed data all_data id :
  forallb tabbed data = false → read_lines data all_data id = Raise IndexError.
Proof.
  revert all_data id.
  induction data as [|line data IH]; intros all_data id; [done|].
  cbn [forallb read_lines]. unfold tabbed at 1.
  destruct (decide (line = nl)) as [Hnl|Hnl].
  - rewrite (bool_decide_eq_false_2 (line ≠ nl)) by (intros Hne; by apply Hne).
    rewrite (bool_decide_eq_true_2 (line = nl)) by done. cbn [orb andb]. apply IH.
  - rewrite (bool_decide_eq_true_2 (line ≠ nl)) by done.
    rewrite index_split_0, index_split_1. cbn [mbind result_bind].
    rewrite (bool_decide_eq_false_2 (line = nl)) by done. cbn [orb].
    destruct (count tab line =? 0)%nat; cbn [negb andb]; [done|]. apply IH.
Qed.

(** Going through the files one after the other is going through the lines
    of all of them. *)
Lemma read_lines_app data1 data2 all_data id :
  read_lines (data1 ++ data2) all_data id =
    read_lines data1 all_data id ≫= λ '(all_data', id'), read_lines data2 all_data' id'.
Proof.
  revert all_data id.
  induction data1 as [|line data1 IH]; intros all_data id; [done|].
  cbn [app read_lines]. case_bool_decide; [|apply IH].
  destruct (index (split tab line) 0); [|done].
  destruct (index (split tab line) 1); [|done]. apply IH.
Qed.

Lemma read_files_concat files all_data id :
  read_files files all_data id = read_lines (concat files) all_data id.
Proof.
  revert all_data id.
  induction files as [|data files IH]; intros all_data id; [done|].
  cbn [read_files concat]. rewrite read_lines_app.
  destruct (read_lines data all_data id) as [[all_data' id']|]; [|done].
  apply IH.
Qed.

Lemma split_generators_lines data_dir listing :
  _split_generators data_dir listing =
    fst <$> read_lines (kept_lines data_dir listing) [] 0.
Proof. unfold _split_generators, kept_lines. by rewrite read_files_concat. Qed.

Lemma split_generators_result data_dir listing :
  _split_generators data_dir listing =
    if forallb tabbed (kept_lines data_dir listing)
    then Ok (records_from (kept_lines data_dir listing) 0)
    else Raise IndexError.
Proof.
  rewrite split_generators_lines.
  destruct (forallb tabbed (kept_lines data_dir listing)) eqn:H.
  - by rewrite read_lines_tabbed.
  - by rewrite read_lines_untabbed.
Qed.

(** C10. A line of a kept file that is not the bare line terminator and has
    no tab makes [_split_generators] stop with [IndexError]: nothing is
    written and no record is generated, whatever the schema. Hence
    [_split_generators] succeeds exactly when every such line of every kept
    file has a tab. *)
Theorem line_without_tab_aborts_split data_dir listing :
  (∀ line,
     line ∈ kept_lines data_dir listing → line ≠ nl → count tab line = 0%nat →
     _split_generators data_dir listing = Raise IndexError ∧
     ∀ schema, load schema data_dir listing = Raise IndexError) ∧
  (is_ok (_split_generators data_dir listing) = true ↔
   ∀ line, line ∈ kept_lines data_dir listing → line ≠ nl → count tab line ≠ 0%nat).
Proof.
  rewrite split_generators_result. split.
  - intros line Hin Hnl Htab.
    assert (forallb tabbed (kept_lines data_dir listing) = false) as Hf.
    { apply not_true_is_false. rewrite forallb_forall.
      intros Hall. specialize (Hall line). rewrite tabbed_spec in Hall.
      apply Hall; [by apply list_elem_of_In|done..]. }
    split; [by rewrite Hf|]. intros schema. unfold load.
    by rewrite split_generators_result, Hf.
  - destruct (forallb tabbed (kept_lines data_dir listing)) eqn:Hf; cbn [is_ok].
    + split; [intros _|done]. intros line Hin.
      rewrite forallb_forall in Hf. apply tabbed_spec, Hf. by apply list_elem_of_In.
    + split; [done|]. intros Hall. rewrite <- Hf. apply forallb_forall.
      intros line Hin. apply tabbed_spec, Hall. by apply list_elem_of_In.
Qed.

End indmad_facts.

(** *** Identifiers of the records *)

Section indmad_ids.

Import IndMad.

Local Abbreviation nl := (String newline EmptyString).





(** Without a skipped line they are consecutive. *)
Lemma numbers_from_dense data id :
  Forall (λ line, line ≠ nl) data →
  numbers_from data id = (λ j, id + Z.of_nat j) <$> seq 0 (length data).
Proof.
  intros Hdata. revert id.
  induction Hdata as [|line data Hline Hdata IH]; intros id; [done|].
  cbn [numbers_from length seq fmap list_fmap]. rewrite bool_decide_eq_true_2 by done.
  cbn [app]. f_equal; [lia|]. rewrite IH, <- fmap_S_seq, <- list_fmap_compose.
  apply list_fmap_ext. intros _ j _. cbn. lia.
Qed.

Lemma numbers_from_length data id :
  Forall (λ line, line ≠ nl) data → length (numbers_from data id) = length data.
Proof. intros H. by rewrite numbers_from_dense, length_fmap, length_seq. Qed.




End indmad_ids.

(** ** ViCon *)

Section vicon_facts.

Import ViCon.





(** C4, as the code has it. Under the [seacrowd_pairs] schema the record of
    a row with the three columns has three fields: ["id"], ["label"], and
    ["text_1"], which holds the second word. The first word is overwritten
    before the record is emitted and appears nowhere in it; there is no
    ["text_2"] field. *)
Theorem pairs_example_keeps_second_word index r word1 word2 relation :
  cell r "Word1" = Ok word1 →
  cell r "Word2" = Ok word2 →
  cell r "Relation" = Ok relation →
  pairs_example index r =
    Ok (mkdict [("id", VStr (str_int index));
                ("text_1", VStr (str_cell word2));
                ("label", VStr (str_cell relation))]) ∧
  ∀ ex, pairs_example index r = Ok ex →
    ex !! "text_1" = Some (VStr (str_cell word2)) ∧
    ex !! "text_2" = None ∧
    dom ex = {["id"; "text_1"; "label"]}.
Proof.
  intros H1 H2 H3.
  assert (pairs_example index r =
    Ok (mkdict [("id", VStr (str_int index));
                ("text_1", VStr (str_cell word2));
                ("label", VStr (str_cell relation))])) as Hex.
  { unfold pairs_example. rewrite H1, H2, H3. cbn [mbind result_bind mret result_ret].
    exact (f_equal Ok (mkdict_repeated_key [("id", VStr (str_int index))] "text_1"
                         (VStr (str_cell word1)) (VStr (str_cell word2))
                         [("label", VStr (str_cell relation))])). }
  split; [done|]. rewrite Hex. intros ex [= <-].
  unfold mkdict. cbn [foldl fst snd]. by split_and!.
Qed.

End vicon_facts.

(** ** UIT-ViCoV19QA *)

Section vicov_facts.

Import ViCoV19QA.




End vicov_facts.

(** ** All the loaders *)

Section identifiers.

Local Abbreviation nl := (String newline EmptyString).
Local Abbreviation printed := (λ i : Z, VStr (str_int i)).






Import Scenario.


(** The record ViCon emits for the row [hot, cold, ANT] under the
    [seacrowd_pairs] schema has ["cold"] as its first text and no second
    text: the two text fields do not hold the same value. *)
Lemma pairs_record_has_no_second_text :
  ∃ ex, ViCon.yields (ViCon._generate_examples "seacrowd_pairs" vicon_lines) = [(0, ex)] ∧
        ex !! "text_1" = Some (VStr "cold") ∧
        ex !! "text_2" = None ∧
        ¬ (∃ v, ex !! "text_1" = Some v ∧ ex !! "text_2" = Some v).
Proof.
  eexists. split; [vm_compute; reflexivity|].
  split_and!; [vm_compute; reflexivity..|].
  intros (v & _ & H). vm_compute in H. discriminate.
Qed.

End identifiers.

(** ** The theorems at work on the scenarios *)

Section witnesses.

Import Scenario.

Lemma pairs_example_keeps_second_word_witness :
  let r := [("Word1", Some "hot"); ("Word2", Some "cold"); ("Relation", Some "ANT")] in
  ViCon.cell r "Word1" = Ok (Some "hot") ∧
  ViCon.cell r "Word2" = Ok (Some "cold") ∧
  ViCon.cell r "Relation" = Ok (Some "ANT") ∧
  ViCon.pairs_example 0 r =
    Ok (mkdict [("id", VStr "0"); ("text_1", VStr "cold"); ("label", VStr "ANT")]).
Proof.
  cbn zeta. split_and!; [reflexivity..|].
  apply (pairs_example_keeps_second_word 0
           [("Word1", Some "hot"); ("Word2", Some "cold"); ("Relation", Some "ANT")]
           (Some "hot") (Some "cold") (Some "ANT")); reflexivity.
Defined.

Lemma download_failure_recorded_witness :
  let line := let '(l, n, c, t, b) := dog_vi in record_value l n c t b in
  getitem line "caption_tokenized" = Ok (VStr "dog on rug") ∧
  getitem line "translation_tokenized" = Ok (VStr "con cho tren tam tham") ∧
  getitem line "backtranslation_tokenized" = Ok (VStr "dog on the rug") ∧
  CC3M35L.fill_img_path flaky_download gcc_df_twice line =
    Ok (CC3M35L.Fetched
          [(2, CC3M35L.GccRow "dog on rug" "http://x/2");
           (3, CC3M35L.GccRow "dog on rug" "http://x/3")]
          [2]
          ["http://x/2"; "http://x/3"]).
Proof.
  cbn zeta. split_and!; [vm_compute; reflexivity..|].
  apply (download_failure_recorded flaky_download gcc_df_twice _
           (VStr "dog on rug") (VStr "con cho tren tam tham") (VStr "dog on the rug"));
    vm_compute; reflexivity.
Defined.

Lemma line_without_tab_aborts_split_witness :
  let listing := [("kejadian.txt", [tsv ["Pada mulanya"; "E dhalem kabidan"]; "Jadilah terang" +:+ nl])] in
  "Jadilah terang" +:+ nl ∈ IndMad.kept_lines "/data" listing ∧
  IndMad._split_generators "/data" listing = Raise IndexError.
Proof.
  cbn zeta.
  assert ("Jadilah terang" +:+ nl ∈
          IndMad.kept_lines "/data"
            [("kejadian.txt", [tsv ["Pada mulanya"; "E dhalem kabidan"]; "Jadilah terang" +:+ nl])])
    as Hin.
  { vm_compute. apply list_elem_of_further, list_elem_of_here. }
  split; [exact Hin|].
  apply (proj1 (line_without_tab_aborts_split "/data" _) _ Hin).
  - vm_compute. discriminate.
  - vm_compute. reflexivity.
Defined.


End witnesses.

(** * Further properties of the loaders *)

(** ** String operations, continued *)

Section py_more_facts.

Lemma split_nonempty sep s : split sep s ≠ [].
Proof.
  pose proof (split_length sep s) as H. intros Hs. by rewrite Hs in H.
Qed.

(** Joining the pieces of a split with the separator gives the string
    back. *)
Lemma join_split sep s : join (String sep EmptyString) (split sep s) = s.
Proof.
  induction s as [|a s IH]; [done|]. cbn [split].
  pose proof (split_nonempty sep s) as Hs.
  destruct (split sep s) as [|w ws]; [done|].
  destruct (Ascii.eqb_spec a sep) as [->|Hne].
  - change (join (String sep EmptyString) (EmptyString :: w :: ws))
      with (String sep (join (String sep EmptyString) (w :: ws))).
    by rewrite IH.
  - rewrite <- IH. by destruct ws.
Qed.

(** No piece of a split holds the separator. *)
Lemma split_no_sep sep s : Forall (λ p, count sep p = 0%nat) (split sep s).
Proof.
  induction s as [|a s IH]; [by constructor|]. cbn [split].
  destruct (Ascii.eqb a sep) eqn:Ha; [by constructor|].
  destruct (split sep s) as [|w ws]; [constructor; [|done]; cbn; by rewrite Ha|].
  inversion IH as [|?? Hw Hws]; subst. constructor; [|done]. cbn. by rewrite Ha.
Qed.

Lemma rstrip_cons_nonspace a s :
  is_space a = false → ∃ r, rstrip (String a s) = String a r.
Proof.
  intros Ha. cbn [rstrip]. rewrite Ha. destruct (rstrip s); by eexists.
Qed.

Lemma rstrip_idemp s : rstrip (rstrip s) = rstrip s.
Proof.
  induction s as [|a s IH]; [done|]. cbn [rstrip].
  destruct (rstrip s) as [|b r] eqn:Hr.
  - destruct (is_space a) eqn:Ha; [done|]. cbn. by rewrite Ha.
  - cbn [rstrip]. cbn [rstrip] in IH. by rewrite IH.
Qed.

Lemma lstrip_head s :
  lstrip s = EmptyString ∨ ∃ a r, lstrip s = String a r ∧ is_space a = false.
Proof.
  induction s as [|a s IH]; [by left|]. cbn [lstrip].
  destruct (is_space a) eqn:Ha; [done|]. right. by eexists _, _.
Qed.

(** What [strip] returns has no whitespace at either end, so stripping it
    again changes nothing. *)
Lemma strip_stripped s : stripped (strip s).
Proof.
  unfold stripped, strip. split; [|apply rstrip_idemp].
  destruct (lstrip_head s) as [->|(a & r & -> & Ha)]; [done|].
  destruct (rstrip_cons_nonspace a r Ha) as [r' ->]. cbn. by rewrite Ha.
Qed.

Lemma strip_idemp s : strip (strip s) = strip s.
Proof.
  destruct (strip_stripped s) as [Hl Hr]. unfold strip at 1. by rewrite Hl, Hr.
Qed.

Lemma starts_with_app p a b :
  starts_with p a = true → starts_with p (a +:+ b) = true.
Proof.
  revert a. induction p as [|c p IH]; intros a; [done|].
  destruct a as [|d a]; [done|].
  change (String d a +:+ b) with (String d (a +:+ b)).
  cbn. intros [Hc H]%andb_prop. rewrite Hc. by apply IH.
Qed.

(** A substring of the front of a path is a substring of the path. *)
Lemma contains_app_l sub a b :
  contains sub a = true → contains sub (a +:+ b) = true.
Proof.
  induction a as [|c a IH].
  - cbn. rewrite orb_false_r. intros H. destruct sub; [|done].
    change (EmptyString +:+ b) with b. by destruct b.
  - cbn [contains]. intros [H|H]%orb_prop.
    + pose proof (starts_with_app _ (String c a) b H) as H'.
      change (String c a +:+ b) with (String c (a +:+ b)) in *.
      cbn [contains]. by rewrite H'.
    + change (String c a +:+ b) with (String c (a +:+ b)).
      cbn [contains]. rewrite (IH H). by rewrite orb_true_r.
Qed.

Lemma ends_with_slash_app a b :
  b ≠ EmptyString → ends_with_slash (a +:+ b) = ends_with_slash b.
Proof.
  intros Hb. induction a as [|c a IH]; [done|].
  change (String c a +:+ b) with (String c (a +:+ b)). cbn [ends_with_slash].
  destruct (a +:+ b) eqn:Hab; [|done].
  destruct a; [by subst|done].
Qed.

End py_more_facts.

(** ** CC3M-35L, continued *)

Section cc3m_side_table.

Import CC3M35L.

Lemma find_label_shifted rows k i :
  find_label (prod_map (Z.add 1) id <$> zip (Z.of_nat <$> seq k (length rows)) rows) i =
    if bool_decide (Z.of_nat k + 1 ≤ i) then rows !! Z.to_nat (i - 1 - Z.of_nat k) else None.
Proof.
  revert k. induction rows as [|r rows IH]; intros k.
  { cbn. by case_bool_decide. }
  cbn [length seq fmap list_fmap zip zip_with prod_map find_label fst snd id].
  case_bool_decide as Hi.
  - rewrite bool_decide_eq_true_2 by lia.
    replace (Z.to_nat (i - 1 - Z.of_nat k)) with 0%nat by lia. done.
  - rewrite IH. case_bool_decide as Hk.
    + rewrite bool_decide_eq_true_2 by lia.
      replace (Z.to_nat (i - 1 - Z.of_nat k)) with (S (Z.to_nat (i - 1 - Z.of_nat (S k))))
        by lia. done.
    + case_bool_decide as Hk'; [|done]. lia.
Qed.

(** X7. The side table of a split is labelled from 1: the label [i] finds
    the [i]-th row of the file, counted from 1, so that the labels 0 and
    [n + 1] of a file of [n] rows, and every negative label, are misses and
    make the lookup raise [KeyError]. *)
Theorem side_table_labels rows i :
  find_label (side_table rows) i =
    (if bool_decide (1 ≤ i) then rows !! Z.to_nat (i - 1) else None) ∧
  (loc_img_url (side_table rows) (VInt i) = Raise KeyError ↔
   i < 1 ∨ Z.of_nat (length rows) < i) ∧
  (∀ r, rows !! Z.to_nat (i - 1) = Some r → 1 ≤ i →
        loc_img_url (side_table rows) (VInt i) = Ok (VStr (img_url r))).
Proof.
  assert (find_label (side_table rows) i =
          if bool_decide (1 ≤ i) then rows !! Z.to_nat (i - 1) else None) as Hf.
  { unfold side_table, shift_index, read_csv. rewrite find_label_shifted.
    cbn [Z.of_nat]. rewrite Z.add_0_l, Z.sub_0_r. done. }
  split; [done|]. unfold loc_img_url. rewrite Hf. split.
  - case_bool_decide as Hi.
    + destruct (rows !! Z.to_nat (i - 1)) as [r|] eqn:Hr.
      * split; [done|]. apply lookup_lt_Some in Hr. lia.
      * split; [|done]. apply lookup_ge_None in Hr. lia.
    + split; [|done]. lia.
  - intros r Hr Hi. by rewrite bool_decide_eq_true_2, Hr.
Qed.

End cc3m_side_table.

Section fill_img_path_edges.

Import CC3M35L.

Variable download : string → option string.

Local Abbreviation fill_img_path := (fill_img_path download).

(** X8. The fields of the stream record are read outside the [try] of
    [fill_img_path]. A record without [caption_tokenized] makes it raise,
    and so does, as soon as one row has the caption, a record without
    [translation_tokenized] or without [backtranslation_tokenized]; the
    matched rows are then not returned. When no row has the caption the
    translation fields are not read: the selection is empty, no index has
    failed and no download was asked for. *)
Theorem missing_field_is_not_caught df line :
  (∀ e, getitem line "caption_tokenized" = Raise e → fill_img_path df line = Raise e) ∧
  (∀ caption e,
     getitem line "caption_tokenized" = Ok caption →
     query_caption df caption ≠ [] →
     getitem line "translation_tokenized" = Raise e →
     fill_img_path df line = Raise e) ∧
  (∀ caption translation e,
     getitem line "caption_tokenized" = Ok caption →
     query_caption df caption ≠ [] →
     getitem line "translation_tokenized" = Ok translation →
     getitem line "backtranslation_tokenized" = Raise e →
     fill_img_path df line = Raise e) ∧
  (∀ caption,
     getitem line "caption_tokenized" = Ok caption →
     query_caption df caption = [] →
     fill_img_path df line = Ok (Fetched [] [] [])).
Proof.
  unfold CC3M35L.fill_img_path. split_and!.
  - by intros e ->.
  - intros caption e -> Hq Ht. cbn [mbind result_bind].
    destruct (query_caption df caption) as [|[idx row] rows]; [done|].
    cbn [fetch_rows]. by rewrite Ht.
  - intros caption translation e -> Hq Ht Hb. cbn [mbind result_bind].
    destruct (query_caption df caption) as [|[idx row] rows]; [done|].
    cbn [fetch_rows]. by rewrite Ht, Hb.
  - intros caption -> Hq. cbn [mbind result_bind]. by rewrite Hq.
Qed.

End fill_img_path_edges.

(** ** Indonesian-Madurese Bible translation, continued *)

Section indmad_more_facts.

Import IndMad.

Local Abbreviation nl := (String newline EmptyString).
Local Abbreviation written line j :=
  (mkdict [("src", VStr (field 0 line)); ("tgt", VStr (field 1 line)); ("id", VInt j)]).

Lemma records_from_numbered data k :
  records_from data (Z.of_nat k) =
    (λ jl : Z * string, written jl.2 jl.1)
      <$> filter (λ jl, jl.2 ≠ nl) (zip (Z.of_nat <$> seq k (length data)) data).
Proof.
  revert k. induction data as [|line data IH]; intros k; [done|].
  cbn [records_from length seq fmap list_fmap zip zip_with].
  rewrite filter_cons. cbn [snd].
  replace (Z.of_nat k + 1) with (Z.of_nat (S k)) by lia. rewrite IH.
  case_bool_decide; [by rewrite decide_True|by rewrite decide_False by tauto].
Qed.

(** X9. When [_split_generators] succeeds, what it writes is one record for
    every line of the kept files other than the bare line terminator, in the
    order of the lines; the record of a line holds the first two tab-separated
    fields of the line, and as ["id"] the number of the line, counted from 0
    through all the kept files, skipped lines included. *)
Theorem records_follow_lines data_dir listing records :
  _split_generators data_dir listing = Ok records →
  let kept := kept_lines data_dir listing in
  records =
    (λ jl : Z * string, written jl.2 jl.1)
      <$> filter (λ jl, jl.2 ≠ nl) (zip (Z.of_nat <$> seq 0 (length kept)) kept) ∧
  length records = length (filter (λ line, line ≠ nl) kept) ∧
  ∀ j line, kept !! j = Some line → line ≠ nl → written line (Z.of_nat j) ∈ records.
Proof.
  rewrite split_generators_result.
  destruct (forallb tabbed (kept_lines data_dir listing)); [|done].
  intros [= <-]. cbn zeta.
  set (kept := kept_lines data_dir listing).
  pose proof (records_from_numbered kept 0) as Hrec.
  change (Z.of_nat 0) with 0 in Hrec.
  split_and!; [done| |].
  - rewrite Hrec, length_fmap. clear Hrec. generalize 0%nat as k.
    induction kept as [|line kept IH]; intros k; [done|].
    cbn [length seq fmap list_fmap zip zip_with]. rewrite !filter_cons. cbn [snd].
    destruct (decide (line ≠ nl)); cbn [length]; by rewrite IH.
  - intros j line Hj Hline. rewrite Hrec.
    apply (list_elem_of_fmap_2 (λ jl : Z * string, written jl.2 jl.1) _ (Z.of_nat j, line)).
    apply list_elem_of_filter. split; [done|].
    apply list_elem_of_lookup. exists j. apply lookup_zip_with_Some.
    exists (Z.of_nat j), line. split_and!; [done| |done].
    rewrite list_lookup_fmap, lookup_seq_lt; [done|].
    by apply lookup_lt_Some in Hj.
Qed.

Lemma starts_with_self_app p q : starts_with p (p +:+ q) = true.
Proof.
  induction p as [|c p IH]; [done|].
  change (String c p +:+ q) with (String c (p +:+ q)). cbn.
  by rewrite Ascii.eqb_refl, IH.
Qed.

Lemma append_assoc (a b c : string) : (a +:+ b) +:+ c = a +:+ (b +:+ c).
Proof.
  induction a as [|x a IH]; [done|].
  change ((String x a +:+ b) +:+ c) with (String x ((a +:+ b) +:+ c)).
  by rewrite IH.
Qed.

Lemma append_nil_r (s : string) : s +:+ EmptyString = s.
Proof.
  induction s as [|a s IH]; [done|].
  change (String a s +:+ EmptyString) with (String a (s +:+ EmptyString)).
  by rewrite IH.
Qed.

Lemma join_two sep p q ps :
  join (String sep EmptyString) (p :: q :: ps) =
    (p +:+ String sep q) +:+
    match ps with
    | [] => EmptyString
    | _ => String sep (join (String sep EmptyString) ps)
    end.
Proof.
  destruct ps as [|w ps].
  - rewrite append_nil_r. done.
  - change (join (String sep EmptyString) (p :: q :: w :: ps))
      with (p +:+ (String sep q +:+ String sep (join (String sep EmptyString) (w :: ps)))).
    by rewrite append_assoc.
Qed.

(** X10. Of a corpus line the reader keeps two fields, both without a tab: the
    text before the first tab and the text between the first tab and the
    second. The line starts with the first, a tab and the second, and is
    exactly that when it has one tab only, so that the second field then
    keeps the end of the line, line terminator included; what follows a
    second tab is dropped. *)
Theorem fields_of_a_line line src tgt :
  index (split tab line) 0 = Ok src →
  index (split tab line) 1 = Ok tgt →
  count tab src = 0%nat ∧ count tab tgt = 0%nat ∧
  starts_with (src +:+ String tab tgt) line = true ∧
  (count tab line = 1%nat → line = src +:+ String tab tgt) ∧
  ((1 < count tab line)%nat →
     ∃ dropped, line = (src +:+ String tab tgt) +:+ String tab dropped).
Proof.
  unfold index. intros H0 H1.
  pose proof (split_length tab line) as Hlen.
  pose proof (split_no_sep tab line) as Hsep.
  pose proof (join_split tab line) as Hjoin.
  destruct (split tab line) as [|p [|q ps]]; try done.
  cbn in H0, H1. injection H0 as ->. injection H1 as ->.
  apply Forall_cons in Hsep as [Hp Hps]. apply Forall_cons in Hps as [Hq _].
  cbn [length] in Hlen. rewrite join_two in Hjoin.
  split_and!; [done..| | |].
  - rewrite <- Hjoin. apply starts_with_self_app.
  - intros Hone. destruct ps as [|w ps]; [|cbn [length] in Hlen; lia].
    by rewrite append_nil_r in Hjoin.
  - intros Hmany. destruct ps as [|w ps]; [cbn [length] in Hlen; lia|].
    by exists (join (String tab EmptyString) (w :: ps)).
Qed.



Lemma append_cons a s r : String a s +:+ r = String a (s +:+ r).
Proof. done. Qed.

Lemma append_nil_l r : EmptyString +:+ r = r.
Proof. done. Qed.

Lemma contains_txt_jsonl d :
  contains "txt" (d +:+ "/train.jsonl") = contains "txt" d.
Proof.
  induction d as [|a d IH]; [done|].
  rewrite append_cons. cbn [contains]. rewrite IH. f_equal.
  destruct d as [|b [|c d]]; rewrite ?append_cons, ?append_nil_l; cbn [starts_with].
  - by destruct (Ascii.eqb "t" a).
  - by destruct (Ascii.eqb "t" a), (Ascii.eqb "x" b).
  - by destruct (Ascii.eqb "t" a), (Ascii.eqb "x" b), (Ascii.eqb "t" c).
Qed.

(** X12. The files are chosen by looking for ["txt"] anywhere in the path
    made of the corpus directory and the file name. A file named
    [train.jsonl], which the loader itself writes into the corpus directory,
    is not read as corpus when the path of the directory does not hold
    ["txt"]; when it does, every file of the directory is read, whatever its
    name. *)
Theorem files_chosen_by_substring data_dir :
  (contains "txt" data_dir = false →
   ∀ before data after,
     kept_lines data_dir (before ++ ("train.jsonl", data) :: after) =
       kept_lines data_dir (before ++ after)) ∧
  (contains "txt" data_dir = true →
   ∀ listing, kept_lines data_dir listing = concat listing.*2).
Proof.
  unfold kept_lines. split.
  - intros Hd before data after.
    rewrite !fmap_app, fmap_cons, !filter_app, filter_cons. cbn [fst snd].
    change (data_dir +:+ "/" +:+ "train.jsonl") with (data_dir +:+ "/train.jsonl").
    rewrite contains_txt_jsonl, Hd. by rewrite decide_False.
  - intros Hd listing. f_equal.
    induction listing as [|[name data] listing IH]; [done|].
    rewrite fmap_cons, filter_cons. cbn [fst snd].
    rewrite decide_True by (by apply contains_app_l).
    cbn. by rewrite IH.
Qed.

(** X13. The file [_generate_examples] is told to read is the file
    [_write_jsonl] has written: joining the corpus directory and
    [train.jsonl] as a path gives the directory, a slash and the name,
    whatever the directory the archive was extracted to. *)
Theorem reads_back_written_file extracted :
  filepath (corpus_dir extracted) = written_path (corpus_dir extracted).
Proof.
  unfold filepath, written_path, path_join at 1.
  cbn [starts_with]. change (Ascii.eqb "/" "t") with false. cbn [andb].
  assert (ends_with_slash (corpus_dir extracted) = false ∧
          is_empty (corpus_dir extracted) = false) as [-> ->]; [|done].
  unfold corpus_dir, path_join. cbn [starts_with].
  change (Ascii.eqb "/" "B") with false. cbn [andb].
  destruct (is_empty extracted || ends_with_slash extracted).
  - rewrite ends_with_slash_app by done. split; [done|]. by destruct extracted.
  - rewrite ends_with_slash_app by done. split; [done|]. by destruct extracted.
Qed.

End indmad_more_facts.

(** ** ViCon, continued *)

Section vicon_more_facts.

Import ViCon.

Lemma mkdict_snoc items k v : mkdict (items ++ [(k, v)]) = <[k := v]> (mkdict items).
Proof. unfold mkdict. by rewrite foldl_app. Qed.

(** In a dict display with distinct keys every item is found under its
    key. *)
Lemma mkdict_lookup_NoDup items k v :
  NoDup items.*1 → (k, v) ∈ items → mkdict items !! k = Some v.
Proof.
  induction items as [|[k' v'] items IH] using rev_ind; [by intros _ ?%elem_of_nil|].
  rewrite fmap_app, mkdict_snoc. cbn [fmap list_fmap fst].
  intros [Hnd [Hdisj _]]%NoDup_app [Hin|Hin%list_elem_of_singleton]%elem_of_app.
  - rewrite lookup_insert_ne; [by apply IH|]. intros <-.
    apply (Hdisj k'); [|by apply list_elem_of_here].
    by apply (list_elem_of_fmap_2 fst items (k', v)).
  - injection Hin as -> ->. by rewrite lookup_insert_eq.
Qed.

Lemma width_uniform (n : nat) (rows : list (list string)) :
  rows ≠ [] → Forall (λ r, length r = n) rows →
  foldr Nat.max 0%nat (length <$> rows) = n.
Proof.
  intros Hne Hrows. induction Hrows as [|r rows Hr Hrows IH]; [done|].
  cbn. destruct rows as [|r' rows]; [cbn; lia|]. rewrite IH by done. lia.
Qed.

Lemma pad_full (n : nat) (cells : list string) :
  length cells = n → pad n cells = Some <$> cells.
Proof. intros <-. unfold pad. by rewrite Nat.sub_diag, app_nil_r. Qed.

Lemma DataFrame_uniform rows columns :
  Forall (λ r, length r = length columns) rows →
  DataFrame rows columns =
    Ok (zip (Z.of_nat <$> seq 0 (length rows))
            ((λ cells, zip columns (Some <$> cells)) <$> rows)).
Proof.
  intros Hrows. unfold DataFrame.
  rewrite bool_decide_eq_false_2.
  - do 2 f_equal. apply Forall_fmap_ext_1.
    eapply Forall_impl; [exact Hrows|]. intros cells Hc. cbn. by rewrite pad_full.
  - intros [Hne Hw]. by rewrite (width_uniform _ _ Hne Hrows) in Hw.
Qed.

Lemma emit_source rows example k :
  emit "source"
       (zip (Z.of_nat <$> seq k (length rows)) rows) example =
    Run (zip (Z.of_nat <$> seq k (length rows)) (to_dict <$> rows)) (Ok ()).
Proof.
  revert example k. induction rows as [|r rows IH]; intros example k; [done|].
  cbn [length seq fmap list_fmap zip zip_with emit].
  rewrite bool_decide_eq_true_2 by done. by rewrite IH.
Qed.

(** X14. The source schema on a well-formed pairs file, that is a header of
    distinct column names followed by lines with as many cells as the
    header: generation ends without exception, yields one record for every
    line after the header, in order and under the keys 0, 1, 2, ..., and the
    record of a line maps every column name to the cell of the line under
    it. *)
Theorem source_records_of_a_pairs_file lines header rows :
  (λ line, split tab (strip line)) <$> lines = header :: rows →
  NoDup header →
  Forall (λ cells, length cells = length header) rows →
  let r := _generate_examples "source" lines in
  outcome r = Ok () ∧
  (yields r).*1 = Z.of_nat <$> seq 0 (length rows) ∧
  Forall2 (λ y cells, ∀ k column x,
             header !! k = Some column → cells !! k = Some x →
             y.2 !! column = Some (VStr x))
          (yields r) rows.
Proof.
  intros Hdata Hnd Hrows. cbn zeta. unfold _generate_examples. rewrite Hdata.
  cbn [index lookup list_lookup tail mbind result_bind].
  rewrite (DataFrame_uniform _ _ Hrows).
  pose proof (emit_source ((λ cells, zip header (Some <$> cells)) <$> rows) None 0) as He.
  rewrite length_fmap in He. rewrite He. cbn [outcome yields].
  split_and!; [done| |].
  - rewrite fst_zip; [done|]. by rewrite !length_fmap, length_seq.
  - apply Forall2_same_length_lookup_2.
    + by rewrite length_zip, !length_fmap, length_seq, Nat.min_id.
    + intros i [key d] cells Hy Hc k column x Hk Hx. cbn [snd].
      apply lookup_zip_with_Some in Hy as (j & d' & [= <- <-] & _ & Hd).
      rewrite !list_lookup_fmap, Hc in Hd. cbn in Hd. injection Hd as <-.
      unfold to_dict. apply mkdict_lookup_NoDup.
      * rewrite <- list_fmap_compose.
        assert (length (Some <$> cells) = length header) as Hlen.
        { rewrite length_fmap. by eapply Forall_lookup_1 in Hrows. }
        replace ((fst ∘ prod_map id cell_value) <$> zip header (Some <$> cells))
          with (zip header (Some <$> cells)).*1
          by (apply list_fmap_ext; by intros ? [??] ?).
        rewrite fst_zip; [done|lia].
      * apply (list_elem_of_fmap_2 (prod_map id cell_value) _ (column, Some x)).
        apply list_elem_of_lookup. exists k. apply lookup_zip_with_Some.
        exists column, (Some x). split_and!; [done..|].
        by rewrite list_lookup_fmap, Hx.
Qed.

(** X15. A file without any line makes generation stop with [IndexError],
    since the header is read from the first line; a file with a header only
    yields nothing and ends without exception, under any schema. *)
Theorem file_without_data schema :
  _generate_examples schema [] = Run [] (Raise IndexError) ∧
  ∀ header, _generate_examples schema [header] = Run [] (Ok ()).
Proof.
  split; [done|]. intros header. unfold _generate_examples, DataFrame.
  cbn [fmap list_fmap index lookup list_lookup tail mbind result_bind].
  rewrite bool_decide_eq_false_2 by (by intros [? _]). done.
Qed.

Section split_generators_facts.

Variable download_and_extract : string → string.

Local Abbreviation _split_generators := (_split_generators download_and_extract).
Local Abbreviation archive :=
  (download_and_extract
     "https://www.ims.uni-stuttgart.de/documents/ressourcen/experiment-daten/ViData.zip").

Lemma number_of_types TYPE : TYPE ∈ TYPES ↔ is_Some (number_of TYPE).
Proof.
  unfold number_of, TYPES. split.
  - intros H. repeat (apply elem_of_cons in H as [->|H]); try by eexists.
    by apply elem_of_nil in H.
  - intros [n Hn]. repeat case_bool_decide; subst; cbn in Hn; try done;
      set_solver.
Qed.

(** X16. [_split_generators] reads the word class from the second piece of
    the name of the configuration. For the classes [noun], [adj] and [verb]
    the file of the train split is [ViData/ViCon/400_noun_pairs.txt],
    [600_adj_pairs.txt] or [400_verb_pairs.txt] under the directory of the
    one archive all three classes share; for any other class the function
    stops with [UnboundLocalError], the variable [number] never being
    assigned; for a name without underscore it stops with [IndexError]. *)
Theorem split_file_of_a_name name :
  (∀ TYPE, split underscore name !! 1%nat = Some TYPE → TYPE ∈ TYPES →
     ∃ n, number_of TYPE = Some n ∧ (n = 400 ∨ n = 600) ∧
          (n = 600 ↔ TYPE = "adj") ∧
          _split_generators name =
            Ok (path_join archive
                  ("ViData/ViCon/" +:+ str_int n +:+ "_" +:+ TYPE +:+ "_pairs.txt"))) ∧
  (∀ TYPE, split underscore name !! 1%nat = Some TYPE → TYPE ∉ TYPES →
     _split_generators name = Raise UnboundLocalError) ∧
  (count underscore name = 0%nat → _split_generators name = Raise IndexError).
Proof.
  unfold ViCon._split_generators, index. split_and!.
  - intros TYPE -> Hin. cbn [mbind result_bind].
    rewrite bool_decide_eq_true_2 by done.
    unfold TYPES in Hin.
    repeat (apply elem_of_cons in Hin as [->|Hin]); try (by apply elem_of_nil in Hin).
    + exists 400. split_and!; [done|by left|done|done].
    + exists 600. split_and!; [done|by right|done|done].
    + exists 400. split_and!; [done|by left|done|done].
  - intros TYPE -> Hin. cbn [mbind result_bind].
    rewrite bool_decide_eq_false_2 by done.
    destruct (number_of TYPE) as [n|] eqn:Hn.
    + destruct Hin. apply number_of_types. by eexists.
    + done.
  - intros Hc. pose proof (split_length underscore name) as Hlen. rewrite Hc in Hlen.
    rewrite lookup_ge_None_2 by lia. done.
Qed.

End split_generators_facts.

End vicon_more_facts.

(** ** UIT-ViCoV19QA, continued *)

Section vicov_more_facts.

Import ViCoV19QA.

Local Abbreviation answers exam := (VList (cell_value <$> drop 2 exam)).



(** X18. On a frame with a single column, or none, the first row makes
    generation stop with [IndexError] before anything is yielded, under any
    schema, the unsupported ones included: the cells are read before the
    schema is looked at. *)
Theorem narrow_frame_raises schema exam raw_examples :
  (length exam < 2)%nat →
  _generate_examples schema (exam :: raw_examples) = Run [] (Raise IndexError).
Proof.
  intros Hexam. unfold _generate_examples. cbn [emit].
  unfold source_example, qa_example, index.
  destruct exam as [|c0 [|c1 exam]]; [| |cbn in Hexam; lia];
    cbn; by repeat case_bool_decide.
Qed.

End vicov_more_facts.

(** ** Unsupported schemas *)

Section unsupported_schemas.

(** X19. What a schema name that the loader does not know does depends on the
    loader. The Indonesian-Madurese generator and the UIT-ViCoV19QA
    generator yield nothing and end without exception, the latter provided
    the frame has its two columns. The ViCon generator yields nothing and
    stops with [UnboundLocalError] at the first line after the header: the
    variable [example] has never been assigned. *)
Theorem unknown_schema_in_each_loader schema :
  (schema ≠ "source" → schema ≠ "seacrowd_t2t" →
   ∀ records, IndMad._generate_examples schema records = IndMad.Run [] (Ok ())) ∧
  (schema ≠ "source" → schema ≠ "seacrowd_qa" →
   ∀ raw_examples,
     Forall (λ exam : list ViCoV19QA.cell, (2 ≤ length exam)%nat) raw_examples →
     ViCoV19QA._generate_examples schema raw_examples = ViCoV19QA.Run [] (Ok ())) ∧
  (schema ≠ "source" → schema ≠ "seacrowd_pairs" →
   ∀ header line lines,
     let data := (λ line, split tab (strip line)) <$> (line :: lines) in
     Forall (λ cells, length cells = length (split tab (strip header))) data →
     ViCon._generate_examples schema (header :: line :: lines) =
       ViCon.Run [] (Raise UnboundLocalError)).
Proof.
  split_and!.
  - intros H1 H2 records. unfold IndMad._generate_examples.
    by rewrite !bool_decide_eq_false_2.
  - intros H1 H2 rows Hrows. unfold ViCoV19QA._generate_examples. generalize 0.
    induction Hrows as [|exam rows Hexam Hrows IH]; intros eid; [done|].
    cbn [ViCoV19QA.emit]. rewrite !bool_decide_eq_false_2 by done.
    destruct exam as [|c0 [|c1 exam]]; [cbn in Hexam; lia..|].
    cbn. apply IH.
  - intros H1 H2 header line lines data Hdata. unfold ViCon._generate_examples.
    rewrite (fmap_cons _ header). unfold index.
    cbn [lookup list_lookup tail mbind result_bind].
    unfold data in Hdata. rewrite (DataFrame_uniform _ _ Hdata).
    rewrite (fmap_cons _ line).
    cbn [fmap list_fmap length seq zip zip_with ViCon.emit].
    by rewrite !bool_decide_eq_false_2.
Qed.

End unsupported_schemas.

(** ** Declared features and configurations *)

Section declared_features.

Lemma dom_mkdict (items : list (string * value)) :
  dom (mkdict items) =@{gset string} list_to_set items.*1.
Proof.
  induction items as [|[k v] items IH] using rev_ind; [apply dom_empty_L|].
  rewrite mkdict_snoc, dom_insert_L, IH, fmap_app, list_to_set_app_L.
  cbn [fmap list_fmap fst]. rewrite list_to_set_cons, list_to_set_nil.
  rewrite (right_id_L ∅ (∪)). apply (comm_L (∪)).
Qed.

Lemma cc3m_source_keys cfg i row caption img_url d :
  CC3M35L.schema cfg = "source" →
  CC3M35L.make_example cfg i row caption img_url = Ok d →
  dom d =@{gset string}
    list_to_set ["id"; "image_paths"; "src_lang"; "caption_tokenized"; "trg_lang";
                 "translation_tokenized"; "backtranslation_tokenized"].
Proof.
  intros Hs. unfold CC3M35L.make_example. rewrite Hs, bool_decide_eq_true_2 by done.
  destruct (index _ 2) as [trg|]; [|done]. cbn [mbind result_bind].
  destruct (getitem row "translation_tokenized") as [t|]; [|done].
  cbn [mbind result_bind].
  destruct (getitem row "backtranslation_tokenized") as [b|]; [|done].
  cbn [mbind result_bind mret result_ret]. intros [= <-]. by rewrite dom_mkdict.
Qed.

Lemma indmad_source_keys records i :
  Forall (λ y : Z * dict, dom y.2 =@{gset string} list_to_set ["id"; "src"; "tgt"])
         (IndMad.yields (IndMad.emit IndMad.source_example records i)).
Proof.
  revert i. induction records as [|r records IH]; intros i; [constructor|].
  cbn [IndMad.emit]. unfold IndMad.source_example at 1.
  destruct (getitem (VDict r) "id") as [id|]; [|constructor]. cbn [mbind result_bind].
  destruct (getitem (VDict r) "src") as [src|]; [|constructor]. cbn [mbind result_bind].
  destruct (getitem (VDict r) "tgt") as [tgt|]; [|constructor].
  cbn [mbind result_bind mret result_ret IndMad.yield IndMad.yields].
  constructor; [cbn [snd]; by rewrite dom_mkdict|apply IH].
Qed.

Lemma vicov_source_keys rows eid :
  Forall (λ y : Z * dict, dom y.2 =@{gset string} list_to_set ["id"; "question"; "answers"])
         (ViCoV19QA.yields (ViCoV19QA.emit "source" rows eid)).
Proof.
  revert eid. induction rows as [|exam rows IH]; intros eid; [constructor|].
  cbn [ViCoV19QA.emit]. rewrite bool_decide_eq_true_2 by done.
  unfold ViCoV19QA.source_example at 1.
  destruct (index exam 0) as [c0|]; [|constructor]. cbn [mbind result_bind].
  destruct (index exam 1) as [c1|]; [|constructor].
  cbn [mbind result_bind mret result_ret ViCoV19QA.yield ViCoV19QA.yields].
  constructor; [cbn [snd]; by rewrite dom_mkdict|apply IH].
Qed.

Lemma foldr_max_le (n : nat) (ns : list nat) : n ∈ ns → (n ≤ foldr Nat.max 0 ns)%nat.
Proof.
  induction ns as [|m ns IH]; [by intros ?%elem_of_nil|].
  intros [->|Hin]%elem_of_cons; cbn; [lia|]. specialize (IH Hin). lia.
Qed.

(** The rows of a frame all have the columns of the frame. *)
Lemma DataFrame_columns data columns df :
  ViCon.DataFrame data columns = Ok df → Forall (λ ir, ir.2.*1 = columns) df.
Proof.
  unfold ViCon.DataFrame. case_bool_decide as Hw; [done|]. intros [= <-].
  apply Forall_forall. intros [i r] Hin. cbn [snd].
  apply elem_of_zip_r in Hin. cbn [snd] in Hin.
  apply list_elem_of_fmap in Hin as (cells & -> & Hcells).
  apply fst_zip. unfold ViCon.pad. rewrite length_app, length_fmap, length_replicate.
  assert (length cells ≤ length columns)%nat; [|lia].
  destruct (decide (foldr Nat.max 0%nat (length <$> data) = length columns)) as [<-|Hne].
  - apply foldr_max_le. by apply list_elem_of_fmap_2.
  - destruct Hw. split; [|done]. intros ->. by apply elem_of_nil in Hcells.
Qed.

Lemma vicon_source_keys rows columns example :
  Forall (λ ir : Z * ViCon.row, ir.2.*1 = columns) rows →
  Forall (λ y : Z * dict, dom y.2 =@{gset string} list_to_set columns)
         (ViCon.yields (ViCon.emit "source" rows example)).
Proof.
  intros Hrows. revert example.
  induction Hrows as [|[i r] rows Hr Hrows IH]; intros example; [constructor|].
  cbn [ViCon.emit]. rewrite bool_decide_eq_true_2 by done.
  cbn [ViCon.yield ViCon.yields]. constructor; [|apply IH].
  cbn [snd] in *. unfold ViCon.to_dict. rewrite dom_mkdict, <- list_fmap_compose.
  rewrite <- Hr. f_equal. all: apply list_fmap_ext; by intros ? [??] ?.
Qed.

(** X20. The columns [_info] declares and the keys of the records. Whenever
    [_info] answers with a [Features] display, which it does under the
    source schema only, every record the generator hands out has exactly
    the declared names as its keys; this in CC3M-35L (the returned record
    included), in the Indonesian-Madurese loader and in UIT-ViCoV19QA. In
    ViCon the keys of a record are the names on the header line of the
    file, whatever [_info] has declared. *)
Theorem declared_names_are_the_keys cfg names :
  (∀ json_loads gcc_df lang split_handler,
     CC3M35L._info cfg = Ok (Features names) →
     let r := CC3M35L._generate_examples json_loads cfg gcc_df lang split_handler in
     Forall (λ y, dom y.2 =@{gset string} list_to_set names) (CC3M35L.yields r) ∧
     ∀ idx c, CC3M35L.outcome r = Ok (idx, Some c) →
              dom c =@{gset string} list_to_set names) ∧
  (∀ records,
     IndMad._info cfg = Ok (Features names) →
     Forall (λ y, dom y.2 =@{gset string} list_to_set names)
            (IndMad.yields (IndMad._generate_examples (CC3M35L.schema cfg) records))) ∧
  (∀ raw_examples,
     ViCoV19QA._info cfg = Ok (Features names) →
     Forall (λ y, dom y.2 =@{gset string} list_to_set names)
            (ViCoV19QA.yields
               (ViCoV19QA._generate_examples (CC3M35L.schema cfg) raw_examples))) ∧
  (∀ header lines,
     ViCon._info cfg = Ok (Features names) →
     names = ["Word1"; "Word2"; "Relation"] ∧
     Forall (λ y, dom y.2 =@{gset string} list_to_set (split tab (strip header)))
            (ViCon.yields
               (ViCon._generate_examples (CC3M35L.schema cfg) (header :: lines)))).
Proof.
  split_and!.
  - intros json_loads gcc_df lang h. unfold CC3M35L._info.
    case_bool_decide as Hs; [|by case_bool_decide]. intros [= <-]. cbn zeta.
    unfold CC3M35L._generate_examples.
    destruct (loop_built json_loads cfg gcc_df lang
                (λ y, dom y.2 =@{gset string}
                   list_to_set ["id"; "image_paths"; "src_lang"; "caption_tokenized";
                                "trg_lang"; "translation_tokenized";
                                "backtranslation_tokenized"])
                (drop (CC3M35L.pos h) (CC3M35L.lines h)) (CC3M35L.pos h) (-1) None)
      as [Hy Ho].
    + intros i row caption img_url d Hd. by eapply cc3m_source_keys.
    + constructor.
    + split; [done|]. intros idx c Hc. specialize (Ho idx (Some c) Hc).
      cbn [CC3M35L.pend] in Ho. by rewrite Forall_singleton in Ho.
  - intros records. unfold IndMad._info.
    case_bool_decide as Hs; [|by case_bool_decide]. intros [= <-].
    unfold IndMad._generate_examples. rewrite bool_decide_eq_true_2 by done.
    apply indmad_source_keys.
  - intros rows. unfold ViCoV19QA._info.
    case_bool_decide as Hs; [|by case_bool_decide]. intros [= <-].
    unfold ViCoV19QA._generate_examples. rewrite Hs. apply vicov_source_keys.
  - intros header lines. unfold ViCon._info.
    case_bool_decide as Hs; [|by case_bool_decide]. intros [= <-]. split; [done|].
    unfold ViCon._generate_examples. rewrite Hs, (fmap_cons _ header). unfold index.
    cbn [lookup list_lookup tail mbind result_bind].
    destruct (ViCon.DataFrame _ _) as [df|e] eqn:Hdf; [|constructor].
    apply vicon_source_keys. by eapply DataFrame_columns.
Qed.

End declared_features.

Section cc3m_configurations.

Import CC3M35L.

Lemma builder_config_language cfg :
  cfg ∈ BUILDER_CONFIGS →
  ∃ code lang,
    code ∈ _LANGUAGES ∧
    split underscore (subset_id cfg) !! 2%nat = Some code ∧
    LANGUAGE_MAP !! code = Some lang ∧
    (schema cfg = "source" ∨ schema cfg = "seacrowd_imtext") ∧
    (code = lang ↔ code = "fil").
Proof.
  unfold BUILDER_CONFIGS, _LANGUAGES. cbn [fmap list_fmap app].
  intros H. repeat (apply elem_of_cons in H as [->|H]); [..|by apply elem_of_nil in H].
  all: cbn [subset_id schema].
  1,5: exists "fil", "fil".
  3,6: exists "ind", "id".
  5,7: exists "tha", "th".
  7,8: exists "vie", "vi".
  all: split_and!; [set_solver|done|done|by (left + right)|done].
Qed.

(** X21. [_split_generators] on any of the eight configurations of the
    builder: without [data_dir] it raises [ValueError]; with it, it returns
    the train split and then the validation split, each with its own
    stream and its own side table, and both with the language code that
    [LANGUAGE_MAP] gives for the third piece of the subset name. The
    language is looked up first: a subset name of fewer than three pieces
    raises [IndexError], and a piece that is not a key of the map raises
    [KeyError], whether or not [data_dir] is given. *)
Theorem split_generators_of_a_configuration cfg data_dir dev train val_rows train_rows :
  (cfg ∈ BUILDER_CONFIGS →
   ∃ code lang,
     code ∈ _LANGUAGES ∧
     split underscore (subset_id cfg) !! 2%nat = Some code ∧
     LANGUAGE_MAP !! code = Some lang ∧
     _split_generators cfg data_dir dev train val_rows train_rows =
       match data_dir with
       | None => Raise ValueError
       | Some _ =>
           Ok [SplitGenerator "train" (open train, side_table train_rows) lang "train";
               SplitGenerator "validation" (open dev, side_table val_rows) lang "dev"]
       end) ∧
  ((count underscore (subset_id cfg) < 2)%nat →
   _split_generators cfg data_dir dev train val_rows train_rows = Raise IndexError) ∧
  (∀ code, split underscore (subset_id cfg) !! 2%nat = Some code →
           code ∉ _LANGUAGES →
           _split_generators cfg data_dir dev train val_rows train_rows = Raise KeyError).
Proof.
  unfold CC3M35L._split_generators, index. split_and!.
  - intros (code & l & Hin & Hc & Hl & _)%builder_config_language.
    exists code, l. split_and!; [done..|]. rewrite Hc. cbn [mbind result_bind].
    rewrite Hl. by destruct data_dir.
  - intros Hc. pose proof (split_length underscore (subset_id cfg)) as Hlen.
    rewrite lookup_ge_None_2 by lia. done.
  - intros code -> Hin. cbn [mbind result_bind].
    unfold LANGUAGE_MAP, _LANGUAGES in *.
    rewrite !lookup_insert_ne, lookup_empty by set_solver. done.
Qed.

Section generate_split_facts.

Variable json_loads : string → option value.

(** X22. With a source configuration of the builder, the language a record
    is selected by and the language written in the record are not the same
    code: [_split_generators] hands the generator the code of
    [LANGUAGE_MAP] ([id], [th], [vi], [fil]), which the stream records
    accepted carry in their [trg_lang], and the record built for each of
    them has in its [trg_lang] the piece of the subset name ([ind], [tha],
    [vie], [fil]). The two agree for [fil] only. *)
Theorem source_tag_is_not_the_stream_tag cfg d dev train val_rows train_rows gens g
    idx c_data :
  cfg ∈ BUILDER_CONFIGS → schema cfg = "source" →
  _split_generators cfg (Some d) dev train val_rows train_rows = Ok gens →
  g ∈ gens →
  outcome (generate_split json_loads cfg g) = Ok (idx, c_data) →
  ∃ code,
    code ∈ _LANGUAGES ∧ LANGUAGE_MAP !! code = Some (gen_lang g) ∧
    (code = gen_lang g ↔ code = "fil") ∧
    Forall2 (λ (y : Z * dict) row,
               getitem row "trg_lang" = Ok (VStr (gen_lang g)) ∧
               y.2 !! "trg_lang" = Some (VStr code))
            (yields (generate_split json_loads cfg g) ++ pend idx c_data)
            (accepted json_loads (gen_lang g)
               (drop (pos (gen_data g).1) (lines (gen_data g).1))).
Proof.
  intros Hcfg Hs Hgens Hg Hout.
  destruct (builder_config_language cfg Hcfg) as (code & l & Hin & Hc & Hl & _ & Hfil).
  unfold CC3M35L._split_generators, index in Hgens. rewrite Hc in Hgens.
  cbn [mbind result_bind] in Hgens. rewrite Hl in Hgens. injection Hgens as <-.
  assert (gen_lang g = l) as Hgl.
  { repeat (apply elem_of_cons in Hg as [->|Hg]); [done..|by apply elem_of_nil in Hg]. }
  exists code. rewrite Hgl. split_and!; [done..|].
  unfold generate_split in *. rewrite Hgl in *.
  pose proof (generate_joined json_loads cfg (gen_data g).2 l _ _ _ Hout) as Hj.
  pose proof (accepted_tagged json_loads l
                (drop (pos (gen_data g).1) (lines (gen_data g).1))) as Ht.
  revert Hj Ht. generalize (accepted json_loads l
                              (drop (pos (gen_data g).1) (lines (gen_data g).1))).
  generalize (yields (_generate_examples json_loads cfg (gen_data g).2 l (gen_data g).1)
                ++ pend idx c_data).
  intros ys rows Hj. induction Hj as [|y row ys rows Hy Hj IH]; [constructor|].
  intros [Hrow Hrows]%Forall_cons. constructor; [|by apply IH].
  split; [done|]. destruct Hy as (caption & url & _ & He).
  unfold make_example, index in He. rewrite Hs, bool_decide_eq_true_2, Hc in He by done.
  cbn [mbind result_bind] in He.
  destruct (getitem row "translation_tokenized") as [t|]; [|done].
  cbn [mbind result_bind] in He.
  destruct (getitem row "backtranslation_tokenized") as [b|]; [|done].
  cbn [mbind result_bind mret result_ret] in He. injection He as <-.
  apply mkdict_lookup_NoDup; [|do 4 apply list_elem_of_further; apply list_elem_of_here].
  cbn [fmap list_fmap fst]. apply (bool_decide_unpack _). by vm_compute.
Qed.

End generate_split_facts.

End cc3m_configurations.

Section uit_vicov19qa_splits.

Import ViCoV19QA.

Variable download_and_extract : string → string.

Local Abbreviation _split_generators := (_split_generators download_and_extract).

(** The local file of a split of a subset. *)
Local Abbreviation file sset split :=
  (download_and_extract
     ("https://raw.githubusercontent.com/triet2397/UIT-ViCoV19QA/main/dataset/"
      +:+ sset +:+ "/UIT-ViCoV19QA_" +:+ split +:+ ".csv")).

(** X23. [_split_generators] of UIT-ViCoV19QA: for each of the eight
    configurations of the builder it returns the train, validation and test
    splits, in that order, the file of each being the download of
    [dataset/<subset>/UIT-ViCoV19QA_<split>.csv] for the subset of the
    configuration; for a subset that is none of the four it raises
    [KeyError]. *)
Theorem splits_of_a_subset cfg :
  (cfg ∈ BUILDER_CONFIGS →
   CC3M35L.subset_id cfg ∈ subsets ∧
   _split_generators cfg =
     Ok [SplitGenerator "train" (file (CC3M35L.subset_id cfg) "train") "train";
         SplitGenerator "validation" (file (CC3M35L.subset_id cfg) "val") "val";
         SplitGenerator "test" (file (CC3M35L.subset_id cfg) "test") "test"]) ∧
  (CC3M35L.subset_id cfg ∉ subsets → _split_generators cfg = Raise KeyError).
Proof.
  split.
  - unfold BUILDER_CONFIGS, subsets. cbn [fmap list_fmap app].
    intros H. repeat (apply elem_of_cons in H as [->|H]); [..|by apply elem_of_nil in H].
    all: split; [cbn; set_solver|]. all: by vm_compute.
  - intros Hin. unfold ViCoV19QA._split_generators, _URLS, subsets in *.
    rewrite !lookup_insert_ne, lookup_empty by set_solver. done.
Qed.

End uit_vicov19qa_splits.

Section default_configurations.

(** X24. The name of the default configuration is the name of one of the
    configurations of the builder in ViCon and in the Indonesian-Madurese
    loader, and of none in CC3M-35L and in UIT-ViCoV19QA; in each loader the
    configurations have distinct names and schemas that [_info] and the
    generator know. In CC3M-35L, moreover, a configuration for the subset
    the default name points at, [cc3m_35l_id], makes [_split_generators]
    raise [KeyError]. *)
Theorem default_configuration_names :
  (ViCon.DEFAULT_CONFIG_NAME ∈ (CC3M35L.name <$> ViCon.BUILDER_CONFIGS) ∧
   IndMad.DEFAULT_CONFIG_NAME ∈ (CC3M35L.name <$> IndMad.BUILDER_CONFIGS) ∧
   (CC3M35L.DEFAULT_CONFIG_NAME ∉ CC3M35L.name <$> CC3M35L.BUILDER_CONFIGS) ∧
   (ViCoV19QA.DEFAULT_CONFIG_NAME ∉ CC3M35L.name <$> ViCoV19QA.BUILDER_CONFIGS)) ∧
  (NoDup (CC3M35L.name <$> ViCon.BUILDER_CONFIGS) ∧
   NoDup (CC3M35L.name <$> IndMad.BUILDER_CONFIGS) ∧
   NoDup (CC3M35L.name <$> CC3M35L.BUILDER_CONFIGS) ∧
   NoDup (CC3M35L.name <$> ViCoV19QA.BUILDER_CONFIGS)) ∧
  (Forall (λ cfg, is_ok (ViCon._info cfg) = true) ViCon.BUILDER_CONFIGS ∧
   Forall (λ cfg, is_ok (IndMad._info cfg) = true) IndMad.BUILDER_CONFIGS ∧
   Forall (λ cfg, is_ok (CC3M35L._info cfg) = true) CC3M35L.BUILDER_CONFIGS ∧
   Forall (λ cfg, is_ok (ViCoV19QA._info cfg) = true) ViCoV19QA.BUILDER_CONFIGS) ∧
  (∀ cfg data_dir dev train val_rows train_rows,
     CC3M35L.subset_id cfg = "cc3m_35l_id" →
     CC3M35L._split_generators cfg data_dir dev train val_rows train_rows =
       Raise KeyError).
Proof.
  split_and!.
  1-2: apply (bool_decide_unpack _); by vm_compute.
  1-2: apply (bool_decide_unpack _); by vm_compute.
  1-4: apply (bool_decide_unpack _); by vm_compute.
  1-4: apply (bool_decide_unpack _); by vm_compute.
  intros cfg data_dir dev train val_rows train_rows Hs.
  unfold CC3M35L._split_generators. by rewrite Hs.
Qed.

End default_configurations.

(** ** The properties above on the scenarios *)

Section more_witnesses.

Import Scenario.

Local Abbreviation stream := [line_of cat_vi; line_of cat_th; line_of dog_vi].



(** The side table has one row, and the second Vietnamese record asks for
    the row 2. *)
Lemma lookup_failure_drops_pending_witness :
  let df := CC3M35L.side_table [CC3M35L.GccRow "cat on mat" "http://x/1"] in
  let row := let '(l, n, c, t, b) := dog_vi in record_value l n c t b in
  let generate := CC3M35L._generate_examples json_loads cfg_imtext df "vi" in
  Forall (λ l, blank l = false) [line_of cat_vi] ∧
  CC3M35L.outcome (generate (CC3M35L.open [line_of cat_vi])) = Ok (0, Some cat_example) ∧
  CC3M35L.requested json_loads "vi" (line_of dog_vi) row ∧
  CC3M35L.match_row df row = Raise KeyError ∧
  CC3M35L.yields (generate (CC3M35L.open ([line_of cat_vi] ++ line_of dog_vi :: []))) =
    CC3M35L.yields (generate (CC3M35L.open [line_of cat_vi])) ∧
  CC3M35L.outcome (generate (CC3M35L.open ([line_of cat_vi] ++ line_of dog_vi :: []))) =
    Raise KeyError.
Proof.
  cbn zeta.
  assert (Forall (λ l, blank l = false) [line_of cat_vi]) as Hpre.
  { apply Forall_singleton. vm_compute. reflexivity. }
  assert (CC3M35L.requested json_loads "vi" (line_of dog_vi)
            (let '(l, n, c, t, b) := dog_vi in record_value l n c t b)) as Hreq.
  { split; [vm_compute; reflexivity|]. split; [vm_compute; reflexivity|].
    exists (VStr "vi"). split; vm_compute; reflexivity. }
  split_and!; [exact Hpre|vm_compute; reflexivity|exact Hreq|vm_compute; reflexivity|..].
  all: destruct (lookup_failure_drops_pending json_loads cfg_imtext
                   (CC3M35L.side_table [CC3M35L.GccRow "cat on mat" "http://x/1"]) "vi"
                   [line_of cat_vi] (line_of dog_vi) []
                   (let '(l, n, c, t, b) := dog_vi in record_value l n c t b)
                   KeyError 0 (Some cat_example) Hpre) as (Hy & Ho & _);
    [vm_compute; reflexivity|exact Hreq|vm_compute; reflexivity|..].
  - exact Hy.
  - exact Ho.
Defined.

(** The second Vietnamese record has no translation. *)
Lemma build_failure_after_yield_witness :
  let generate := CC3M35L._generate_examples json_loads_bare cfg_imtext gcc_df "vi" in
  Forall (λ l, blank l = false) [line_of cat_vi] ∧
  CC3M35L.outcome (generate (CC3M35L.open [line_of cat_vi])) = Ok (0, Some cat_example) ∧
  CC3M35L.requested json_loads_bare "vi" (bare_text +:+ nl) bare_value ∧
  CC3M35L.match_row gcc_df bare_value = Ok (VStr "dog on rug", VStr "http://x/2") ∧
  CC3M35L.make_example cfg_imtext (0 + 1) bare_value (VStr "dog on rug") (VStr "http://x/2") =
    Raise KeyError ∧
  CC3M35L.yields (generate (CC3M35L.open ([line_of cat_vi] ++ (bare_text +:+ nl) :: []))) =
    CC3M35L.yields (generate (CC3M35L.open [line_of cat_vi])) ++ [(0, cat_example)].
Proof.
  cbn zeta.
  assert (Forall (λ l, blank l = false) [line_of cat_vi]) as Hpre.
  { apply Forall_singleton. vm_compute. reflexivity. }
  assert (CC3M35L.requested json_loads_bare "vi" (bare_text +:+ nl) bare_value) as Hreq.
  { split; [vm_compute; reflexivity|]. split; [vm_compute; reflexivity|].
    exists (VStr "vi"). split; vm_compute; reflexivity. }
  split_and!; [exact Hpre|vm_compute; reflexivity|exact Hreq|vm_compute; reflexivity..|].
  apply (build_failure_after_yield json_loads_bare cfg_imtext gcc_df "vi"
           [line_of cat_vi] (bare_text +:+ nl) [] bare_value
           (VStr "dog on rug") (VStr "http://x/2") KeyError 0 (Some cat_example) Hpre).
  - vm_compute. reflexivity.
  - exact Hreq.
  - vm_compute. reflexivity.
  - vm_compute. reflexivity.
Defined.

Lemma unsupported_schema_yields_nothing_witness :
  CC3M35L.schema cfg_t2t ≠ "source" ∧ CC3M35L.schema cfg_t2t ≠ "seacrowd_imtext" ∧
  CC3M35L.yields
    (CC3M35L._generate_examples json_loads cfg_t2t gcc_df "vi" (CC3M35L.open stream)) = [].
Proof.
  assert (CC3M35L.schema cfg_t2t ≠ "source") as H1 by (vm_compute; discriminate).
  assert (CC3M35L.schema cfg_t2t ≠ "seacrowd_imtext") as H2 by (vm_compute; discriminate).
  split_and!; [exact H1|exact H2|].
  apply (unsupported_schema_yields_nothing json_loads cfg_t2t gcc_df "vi"
           (CC3M35L.open stream) H1 H2).
Defined.

Lemma is_target_is_the_filter_witness :
  let row := let '(l, n, c, t, b) := cat_th in record_value l n c t b in
  is_empty (strip (line_of cat_th)) = false ∧
  json_loads (strip (line_of cat_th)) = Some row ∧
  CC3M35L.is_target row "vi" = Ok None ∧
  CC3M35L.accepted json_loads "vi" (line_of cat_th :: [line_of dog_vi]) =
    CC3M35L.accepted json_loads "vi" [line_of dog_vi].
Proof.
  cbn zeta. split_and!; [vm_compute; reflexivity..|].
  apply (proj1 (is_target_is_the_filter json_loads cfg_imtext gcc_df "vi"
                  (line_of cat_th) _ [line_of dog_vi] 0%nat (-1) None
                  ltac:(vm_compute; reflexivity) ltac:(vm_compute; reflexivity))).
  vm_compute. reflexivity.
Defined.

Lemma side_table_labels_witness :
  gcc_rows !! Z.to_nat (2 - 1) = Some (CC3M35L.GccRow "dog on rug" "http://x/2") ∧
  1 ≤ 2 ∧
  CC3M35L.loc_img_url (CC3M35L.side_table gcc_rows) (VInt 2) = Ok (VStr "http://x/2").
Proof.
  split_and!; [reflexivity|lia|].
  apply (proj2 (proj2 (side_table_labels gcc_rows 2))
           (CC3M35L.GccRow "dog on rug" "http://x/2")); [reflexivity|lia].
Defined.

Lemma missing_field_is_not_caught_witness :
  getitem bare_value "caption_tokenized" = Ok (VStr "dog on rug") ∧
  CC3M35L.query_caption gcc_df (VStr "dog on rug") ≠ [] ∧
  getitem bare_value "translation_tokenized" = Raise KeyError ∧
  CC3M35L.fill_img_path flaky_download gcc_df bare_value = Raise KeyError.
Proof.
  split_and!; [vm_compute; reflexivity|vm_compute; discriminate|vm_compute; reflexivity|].
  apply (proj1 (proj2 (missing_field_is_not_caught flaky_download gcc_df bare_value))
           (VStr "dog on rug") KeyError).
  - vm_compute. reflexivity.
  - vm_compute. discriminate.
  - vm_compute. reflexivity.
Defined.

Lemma records_follow_lines_witness :
  IndMad._split_generators "/data" bible_listing = Ok bible_records ∧
  length bible_records =
    length (filter (λ line, line ≠ nl) (IndMad.kept_lines "/data" bible_listing)).
Proof.
  assert (IndMad._split_generators "/data" bible_listing = Ok bible_records) as H
    by (vm_compute; reflexivity).
  split; [exact H|].
  apply (proj1 (proj2 (records_follow_lines "/data" bible_listing bible_records H))).
Defined.

Lemma fields_of_a_line_witness :
  let line := tsv ["Pada mulanya"; "E dhalem kabidan"] in
  index (split tab line) 0 = Ok "Pada mulanya" ∧
  index (split tab line) 1 = Ok ("E dhalem kabidan" +:+ nl) ∧
  starts_with ("Pada mulanya" +:+ String tab ("E dhalem kabidan" +:+ nl)) line = true.
Proof.
  cbn zeta. split_and!; [vm_compute; reflexivity..|].
  apply (fields_of_a_line (tsv ["Pada mulanya"; "E dhalem kabidan"])
           "Pada mulanya" ("E dhalem kabidan" +:+ nl)); vm_compute; reflexivity.
Defined.


Lemma files_chosen_by_substring_witness :
  contains "txt" "/data" = false ∧
  IndMad.kept_lines "/data" ([] ++ ("train.jsonl", ["{}" +:+ nl]) :: bible_listing) =
    IndMad.kept_lines "/data" ([] ++ bible_listing).
Proof.
  split; [reflexivity|].
  apply (proj1 (files_chosen_by_substring "/data")). reflexivity.
Defined.

Lemma source_records_of_a_pairs_file_witness :
  let header := ["Word1"; "Word2"; "Relation"] in
  let rows := [["hot"; "cold"; "ANT"]] in
  (λ line, split tab (strip line)) <$> vicon_lines = header :: rows ∧
  NoDup header ∧
  Forall (λ cells : list string, length cells = length header) rows ∧
  ViCon.outcome (ViCon._generate_examples "source" vicon_lines) = Ok ().
Proof.
  cbn zeta.
  assert (NoDup ["Word1"; "Word2"; "Relation"]) as Hnd.
  { apply (bool_decide_unpack _). vm_compute. reflexivity. }
  assert (Forall (λ cells : list string, length cells = 3%nat) [["hot"; "cold"; "ANT"]])
    as Hrows by (apply Forall_singleton; reflexivity).
  split_and!; [vm_compute; reflexivity|exact Hnd|exact Hrows|].
  apply (source_records_of_a_pairs_file vicon_lines
           ["Word1"; "Word2"; "Relation"] [["hot"; "cold"; "ANT"]]);
    [vm_compute; reflexivity|exact Hnd|exact Hrows].
Defined.

Lemma split_file_of_a_name_witness :
  split underscore "vicon_all_source" !! 1%nat = Some "all" ∧
  ("all" ∉ ViCon.TYPES) ∧
  ViCon._split_generators cache "vicon_all_source" = Raise UnboundLocalError.
Proof.
  assert ("all" ∉ ViCon.TYPES) as Hin.
  { apply (bool_decide_unpack _). vm_compute. reflexivity. }
  split_and!; [reflexivity|exact Hin|].
  apply (proj1 (proj2 (split_file_of_a_name cache "vicon_all_source")) "all");
    [reflexivity|exact Hin].
Defined.


Lemma narrow_frame_raises_witness :
  (length [ViCoV19QA.CInt 7] < 2)%nat ∧
  ViCoV19QA._generate_examples "seacrowd_qa" ([ViCoV19QA.CInt 7] :: qa_rows) =
    ViCoV19QA.Run [] (Raise IndexError).
Proof.
  split; [simpl; lia|].
  apply (narrow_frame_raises "seacrowd_qa" [ViCoV19QA.CInt 7] qa_rows). simpl. lia.
Defined.

Lemma unknown_schema_in_each_loader_witness :
  "seacrowd_imtext" ≠ "source" ∧ "seacrowd_imtext" ≠ "seacrowd_pairs" ∧
  Forall (λ cells, length cells = length (split tab (strip (tsv ["Word1"; "Word2"; "Relation"]))))
         ((λ line, split tab (strip line)) <$> [tsv ["hot"; "cold"; "ANT"]]) ∧
  ViCon._generate_examples "seacrowd_imtext" vicon_lines =
    ViCon.Run [] (Raise UnboundLocalError).
Proof.
  assert (Forall (λ cells, length cells
                           = length (split tab (strip (tsv ["Word1"; "Word2"; "Relation"]))))
            ((λ line, split tab (strip line)) <$> [tsv ["hot"; "cold"; "ANT"]])) as H.
  { apply Forall_singleton. vm_compute. reflexivity. }
  split_and!; [discriminate|discriminate|exact H|].
  apply (proj2 (proj2 (unknown_schema_in_each_loader "seacrowd_imtext"))
           ltac:(discriminate) ltac:(discriminate)
           (tsv ["Word1"; "Word2"; "Relation"]) (tsv ["hot"; "cold"; "ANT"]) [] H).
Defined.

Lemma declared_names_are_the_keys_witness :
  let names := ["id"; "src"; "tgt"] in
  let cfg := CC3M35L.Config "indonesian_madurese_bible_translation_source" "source"
               "indonesian_madurese_bible_translation" in
  IndMad._info cfg = Ok (Features names) ∧
  Forall (λ y : Z * dict, dom y.2 =@{gset string} list_to_set names)
         (IndMad.yields (IndMad._generate_examples "source" bible_records)).
Proof.
  cbn zeta. split; [reflexivity|].
  apply (proj1 (proj2 (declared_names_are_the_keys
                         (CC3M35L.Config "indonesian_madurese_bible_translation_source"
                            "source" "indonesian_madurese_bible_translation")
                         ["id"; "src"; "tgt"])) bible_records).
  reflexivity.
Defined.

Lemma split_generators_of_a_configuration_witness :
  cfg_source ∈ CC3M35L.BUILDER_CONFIGS ∧
  ∃ code lang,
    code ∈ CC3M35L._LANGUAGES ∧
    split underscore (CC3M35L.subset_id cfg_source) !! 2%nat = Some code ∧
    CC3M35L.LANGUAGE_MAP !! code = Some lang ∧
    CC3M35L._split_generators cfg_source None [] stream [] gcc_rows = Raise ValueError.
Proof.
  assert (cfg_source ∈ CC3M35L.BUILDER_CONFIGS) as H.
  { vm_compute. do 3 apply list_elem_of_further. apply list_elem_of_here. }
  split; [exact H|].
  apply (proj1 (split_generators_of_a_configuration cfg_source None [] stream [] gcc_rows) H).
Defined.

Lemma source_tag_is_not_the_stream_tag_witness :
  let g := CC3M35L.SplitGenerator "train" (CC3M35L.open stream, CC3M35L.side_table gcc_rows)
             "vi" "train" in
  let gens := [g; CC3M35L.SplitGenerator "validation"
                    (CC3M35L.open [], CC3M35L.side_table []) "vi" "dev"] in
  cfg_source ∈ CC3M35L.BUILDER_CONFIGS ∧
  CC3M35L.schema cfg_source = "source" ∧
  CC3M35L._split_generators cfg_source (Some "/gcc") [] stream [] gcc_rows = Ok gens ∧
  g ∈ gens ∧
  CC3M35L.outcome (CC3M35L.generate_split json_loads cfg_source g) =
    Ok (1, Some dog_source_example) ∧
  ∃ code,
    code ∈ CC3M35L._LANGUAGES ∧ CC3M35L.LANGUAGE_MAP !! code = Some "vi" ∧
    (code = "vi" ↔ code = "fil") ∧
    Forall2 (λ (y : Z * dict) row,
               getitem row "trg_lang" = Ok (VStr "vi") ∧
               y.2 !! "trg_lang" = Some (VStr code))
            (CC3M35L.yields (CC3M35L.generate_split json_loads cfg_source g)
               ++ CC3M35L.pend 1 (Some dog_source_example))
            (CC3M35L.accepted json_loads "vi" stream).
Proof.
  cbn zeta.
  assert (cfg_source ∈ CC3M35L.BUILDER_CONFIGS) as H.
  { vm_compute. do 3 apply list_elem_of_further. apply list_elem_of_here. }
  split_and!; [exact H|reflexivity|vm_compute; reflexivity|apply list_elem_of_here
              |vm_compute; reflexivity|].
  apply (source_tag_is_not_the_stream_tag json_loads cfg_source "/gcc" [] stream []
           gcc_rows
           [CC3M35L.SplitGenerator "train"
              (CC3M35L.open stream, CC3M35L.side_table gcc_rows) "vi" "train";
            CC3M35L.SplitGenerator "validation"
              (CC3M35L.open [], CC3M35L.side_table []) "vi" "dev"]
           (CC3M35L.SplitGenerator "train"
              (CC3M35L.open stream, CC3M35L.side_table gcc_rows) "vi" "train")
           1 (Some dog_source_example) H).
  - reflexivity.
  - vm_compute. reflexivity.
  - apply list_elem_of_here.
  - vm_compute. reflexivity.
Defined.

Lemma splits_of_a_subset_witness :
  let cfg := CC3M35L.Config "uit_vicov19qa_2_ans_seacrowd_qa" "seacrowd_qa" "2_ans" in
  cfg ∈ ViCoV19QA.BUILDER_CONFIGS ∧
  ViCoV19QA._split_generators cache cfg =
    Ok [ViCoV19QA.SplitGenerator "train"
          "/cache/https://raw.githubusercontent.com/triet2397/UIT-ViCoV19QA/main/dataset/2_ans/UIT-ViCoV19QA_train.csv"
          "train";
        ViCoV19QA.SplitGenerator "validation"
          "/cache/https://raw.githubusercontent.com/triet2397/UIT-ViCoV19QA/main/dataset/2_ans/UIT-ViCoV19QA_val.csv"
          "val";
        ViCoV19QA.SplitGenerator "test"
          "/cache/https://raw.githubusercontent.com/triet2397/UIT-ViCoV19QA/main/dataset/2_ans/UIT-ViCoV19QA_test.csv"
          "test"].
Proof.
  cbn zeta.
  assert (CC3M35L.Config "uit_vicov19qa_2_ans_seacrowd_qa" "seacrowd_qa" "2_ans"
          ∈ ViCoV19QA.BUILDER_CONFIGS) as H.
  { vm_compute. do 5 apply list_elem_of_further. apply list_elem_of_here. }
  split; [exact H|].
  apply (proj2 (proj1 (splits_of_a_subset cache
                         (CC3M35L.Config "uit_vicov19qa_2_ans_seacrowd_qa" "seacrowd_qa"
                            "2_ans")) H)).
Defined.

Lemma default_configuration_names_witness :
  let cfg := CC3M35L.Config "cc3m_35l_id_source" "source" "cc3m_35l_id" in
  CC3M35L.name cfg = CC3M35L.DEFAULT_CONFIG_NAME ∧
  CC3M35L.subset_id cfg = "cc3m_35l_id" ∧
  CC3M35L._split_generators cfg (Some "/gcc") [] stream [] gcc_rows = Raise KeyError.
Proof.
  cbn zeta. split_and!; [reflexivity..|].
  apply (proj2 (proj2 (proj2 default_configuration_names))
           (CC3M35L.Config "cc3m_35l_id_source" "source" "cc3m_35l_id")).
  reflexivity.
Defined.

End more_witnesses.
